(** * TransparentCrowdfunding: a shallow embedding of the ledger contract

    The contract (Solidity ^0.8.19) keeps an id-keyed project table, per-project
    expense and contribution arrays, a cumulative-contribution index and a
    refund-claimed index.  Storage mappings are finite maps read with the
    Solidity zero default; [uint256] is [N] with the checked arithmetic of
    Solidity 0.8 written out (overflow reverts with [Panic 0x11]); a revert
    discards every write of the call, so a call yields either a new state or
    an error and nothing else. *)

From Stdlib Require Import NArith Lia.
From stdpp Require Import gmap strings list fin_maps.

Local Open Scope N_scope.

(** ** Machine integers, addresses, time units *)

Abbreviation address := N.
Abbreviation uint256 := N.

Definition uint256_max : N := 2 ^ 256 - 1.
Definition days : N := 86400.
Definition ether : N := 10 ^ 18.

(** ** Errors *)

Inductive Role := DEFAULT_ADMIN_ROLE | PROJECT_CREATOR_ROLE.

Global Instance Role_eq_dec : EqDecision Role.
Proof. solve_decision. Defined.

Global Instance Role_countable : Countable Role :=
  inj_countable'
    (λ r, match r with DEFAULT_ADMIN_ROLE => false | PROJECT_CREATOR_ROLE => true end)
    (λ b : bool, if b then PROJECT_CREATOR_ROLE else DEFAULT_ADMIN_ROLE)
    (λ r, match r with DEFAULT_ADMIN_ROLE => eq_refl | PROJECT_CREATOR_ROLE => eq_refl end).

(** [Reason msg] is a failed [require] with the message of the source;
    [Panic 0x11] is an arithmetic overflow and [Panic 0x32] an array index out
    of bounds; the remaining constructors are the custom errors of the
    inherited guard, pause and access-control modifiers. *)
Inductive Error :=
| Reason (msg : string)
| Panic (code : N)
| EnforcedPause
| ExpectedPause
| ReentrancyGuardReentrantCall
| AccessControlUnauthorizedAccount (account : address) (role : Role).

(** The names the specification gives to the error kinds used below. *)
Definition SystemPaused : Error := EnforcedPause.
Definition ReentrancyDetected : Error := ReentrancyGuardReentrantCall.
Definition AlreadyClaimed : Error := Reason "Refund already claimed".
Definition TransferFailed : Error := Reason "Transfer failed".

Inductive Result (A : Type) :=
| Ok (a : A)
| Revert (e : Error).
Arguments Ok {A} a.
Arguments Revert {A} e.

Global Instance Result_ret : MRet Result := λ A a, Ok a.
Global Instance Result_bind : MBind Result :=
  λ A B k r, match r with Ok a => k a | Revert e => Revert e end.

Definition require (cond : bool) (msg : string) : Result unit :=
  if cond then Ok tt else Revert (Reason msg).

Definition checked_add (a b : uint256) : Result uint256 :=
  if a + b <=? uint256_max then Ok (a + b) else Revert (Panic 0x11).

Definition checked_mul (a b : uint256) : Result uint256 :=
  if a * b <=? uint256_max then Ok (a * b) else Revert (Panic 0x11).

Definition checked_sub (a b : uint256) : Result uint256 :=
  if b <=? a then Ok (a - b) else Revert (Panic 0x11).

(** ** Data model *)

Inductive ProjectStatus := Active | Completed | Cancelled.

Global Instance ProjectStatus_eq_dec : EqDecision ProjectStatus.
Proof. solve_decision. Defined.

Inductive ExpenseCategory :=
| Development | Marketing | Operations | Infrastructure | Other.

Record Project := mkProject {
  title : string;
  description : string;
  creator : address;
  goalAmount : uint256;
  currentAmount : uint256;
  deadline : uint256;
  status : ProjectStatus;
  fundsReleased : bool;
  totalExpenses : uint256;
  createdAt : uint256
}.

Record Expense := mkExpense {
  exp_description : string;
  amount : uint256;
  category : ExpenseCategory;
  exp_timestamp : uint256;
  approved : bool;
  proofUrl : string
}.

Record Contribution := mkContribution {
  contributor : address;
  ctr_amount : uint256;
  ctr_timestamp : uint256
}.

Inductive Event :=
| ProjectCreated (projectId : uint256) (title : string) (creator : address)
    (goalAmount deadline : uint256)
| ContributionMade (projectId : uint256) (contributor : address) (amount : uint256)
| ExpenseSubmitted (projectId expenseIndex : uint256) (description : string)
    (amount : uint256)
| ExpenseApproved (projectId expenseIndex : uint256)
| FundsReleased (projectId amount : uint256)
| ProjectCompleted (projectId : uint256)
| ProjectCancelled (projectId : uint256)
| RefundClaimed (projectId : uint256) (contributor : address) (amount : uint256)
| Paused (account : address)
| Unpaused (account : address)
| RoleGranted (role : Role) (account sender : address)
| RoleRevoked (role : Role) (account sender : address).

(** The storage of the contract, the ether it holds and the log it has
    emitted.  [_status] is the flag of the reentrancy guard ([true] while a
    guarded call is in progress), [_paused] the pause switch and [_roles] the
    role table. *)
Record State := mkState {
  projects : gmap N Project;
  projectExpenses : gmap N (list Expense);
  projectContributions : gmap N (list Contribution);
  contributions : gmap (N * address) uint256;
  refundClaimed : gmap (N * address) bool;
  projectCount : uint256;
  _paused : bool;
  _status : bool;
  _roles : gset (Role * address);
  balance : N;
  events : list Event
}.

Definition MINIMUM_CONTRIBUTION : uint256 := ether / 100.
Definition MINIMUM_FUNDING_PERIOD : uint256 := 1 * days.
Definition MAXIMUM_FUNDING_PERIOD : uint256 := 90 * days.

(** *** Storage reads: an absent key reads as the zero value *)

Definition zeroProject : Project :=
  mkProject EmptyString EmptyString 0 0 0 0 Active false 0 0.

Definition getProject (s : State) (projectId : N) : Project :=
  default zeroProject (projects s !! projectId).

Definition getProjectExpenses (s : State) (projectId : N) : list Expense :=
  default [] (projectExpenses s !! projectId).

Definition getProjectContributions (s : State) (projectId : N) : list Contribution :=
  default [] (projectContributions s !! projectId).

Definition getContribution (s : State) (projectId : N) (a : address) : uint256 :=
  default 0 (contributions s !! (projectId, a)).

Definition getRefundClaimed (s : State) (projectId : N) (a : address) : bool :=
  default false (refundClaimed s !! (projectId, a)).

Definition hasRole (s : State) (role : Role) (account : address) : bool :=
  bool_decide ((role, account) ∈ _roles s).

(** *** Storage writes *)

Definition set_projects (m : gmap N Project) (s : State) : State :=
  mkState m (projectExpenses s) (projectContributions s) (contributions s)
    (refundClaimed s) (projectCount s) (_paused s) (_status s) (_roles s)
    (balance s) (events s).

Definition set_projectExpenses (m : gmap N (list Expense)) (s : State) : State :=
  mkState (projects s) m (projectContributions s) (contributions s)
    (refundClaimed s) (projectCount s) (_paused s) (_status s) (_roles s)
    (balance s) (events s).

Definition set_projectContributions (m : gmap N (list Contribution)) (s : State)
  : State :=
  mkState (projects s) (projectExpenses s) m (contributions s)
    (refundClaimed s) (projectCount s) (_paused s) (_status s) (_roles s)
    (balance s) (events s).

Definition set_contributions (m : gmap (N * address) uint256) (s : State) : State :=
  mkState (projects s) (projectExpenses s) (projectContributions s) m
    (refundClaimed s) (projectCount s) (_paused s) (_status s) (_roles s)
    (balance s) (events s).

Definition set_refundClaimed (m : gmap (N * address) bool) (s : State) : State :=
  mkState (projects s) (projectExpenses s) (projectContributions s)
    (contributions s) m (projectCount s) (_paused s) (_status s) (_roles s)
    (balance s) (events s).

Definition set_projectCount (n : uint256) (s : State) : State :=
  mkState (projects s) (projectExpenses s) (projectContributions s)
    (contributions s) (refundClaimed s) n (_paused s) (_status s) (_roles s)
    (balance s) (events s).

Definition set_paused (b : bool) (s : State) : State :=
  mkState (projects s) (projectExpenses s) (projectContributions s)
    (contributions s) (refundClaimed s) (projectCount s) b (_status s) (_roles s)
    (balance s) (events s).

Definition set_status (b : bool) (s : State) : State :=
  mkState (projects s) (projectExpenses s) (projectContributions s)
    (contributions s) (refundClaimed s) (projectCount s) (_paused s) b (_roles s)
    (balance s) (events s).

Definition set_roles (r : gset (Role * address)) (s : State) : State :=
  mkState (projects s) (projectExpenses s) (projectContributions s)
    (contributions s) (refundClaimed s) (projectCount s) (_paused s) (_status s) r
    (balance s) (events s).

Definition set_balance (b : N) (s : State) : State :=
  mkState (projects s) (projectExpenses s) (projectContributions s)
    (contributions s) (refundClaimed s) (projectCount s) (_paused s) (_status s)
    (_roles s) b (events s).

Definition emit (e : Event) (s : State) : State :=
  mkState (projects s) (projectExpenses s) (projectContributions s)
    (contributions s) (refundClaimed s) (projectCount s) (_paused s) (_status s)
    (_roles s) (balance s) (events s ++ [e]).

Definition setProject (projectId : N) (p : Project) (s : State) : State :=
  set_projects (<[projectId := p]> (projects s)) s.

Definition setExpenses (projectId : N) (l : list Expense) (s : State) : State :=
  set_projectExpenses (<[projectId := l]> (projectExpenses s)) s.

Definition with_currentAmount (v : uint256) (p : Project) : Project :=
  mkProject (title p) (description p) (creator p) (goalAmount p) v (deadline p)
    (status p) (fundsReleased p) (totalExpenses p) (createdAt p).

Definition with_status (st : ProjectStatus) (p : Project) : Project :=
  mkProject (title p) (description p) (creator p) (goalAmount p) (currentAmount p)
    (deadline p) st (fundsReleased p) (totalExpenses p) (createdAt p).

Definition with_totalExpenses (v : uint256) (p : Project) : Project :=
  mkProject (title p) (description p) (creator p) (goalAmount p) (currentAmount p)
    (deadline p) (status p) (fundsReleased p) v (createdAt p).

Definition with_approved (b : bool) (e : Expense) : Expense :=
  mkExpense (exp_description e) (amount e) (category e) (exp_timestamp e) b
    (proofUrl e).

(** ** Inherited modifiers

    The guard, pause and role modifiers come from the imported library
    contracts (ReentrancyGuard, Pausable, AccessControl), whose sources are
    not part of the repository. *)

(** Modelled from the spec: the pause gate of Pausable; a gated entry point
    fails with SystemPaused while the switch is on. *)
Definition whenNotPaused {A} (s : State) (body : Result A) : Result A :=
  if _paused s then Revert EnforcedPause else body.

(** Modelled from the spec: the converse gate of Pausable, used by
    [unpause]. *)
Definition whenPaused {A} (s : State) (body : Result A) : Result A :=
  if _paused s then body else Revert ExpectedPause.

(** Modelled from the spec: the role check of AccessControl; an
    unauthorized caller fails with PermissionDenied before anything else
    happens. *)
Definition onlyRole {A} (role : Role) (sender : address) (s : State)
    (body : Result A) : Result A :=
  if hasRole s role sender then body
  else Revert (AccessControlUnauthorizedAccount sender role).

(** Modelled from the spec: the lock of ReentrancyGuard, one flag per call
    stack; entry sets it, nested entry fails fast with ReentrancyDetected,
    exit clears it (a failing body reverts the flag with everything else). *)
Definition nonReentrant (s : State) (body : State → Result State) : Result State :=
  if _status s then Revert ReentrancyGuardReentrantCall
  else s' ← body (set_status true s); Ok (set_status false s').

(** Modelled from the spec: every role is administered by Admin. *)
Definition getRoleAdmin (role : Role) : Role := DEFAULT_ADMIN_ROLE.

(** Modelled from the spec: the internal role grant of AccessControl. *)
Definition _grantRole (role : Role) (account sender : address) (s : State) : State :=
  if hasRole s role account then s
  else emit (RoleGranted role account sender)
         (set_roles ({[ (role, account) ]} ∪ _roles s) s).

(** Modelled from the spec: the internal role removal of AccessControl. *)
Definition _revokeRole (role : Role) (account sender : address) (s : State) : State :=
  if hasRole s role account
  then emit (RoleRevoked role account sender)
         (set_roles (_roles s ∖ {[ (role, account) ]}) s)
  else s.

(** Modelled from the spec: [grantRole] of AccessControl, open to the
    administrators of the role. *)
Definition grantRole (sender : address) (role : Role) (account : address)
    (s : State) : Result State :=
  onlyRole (getRoleAdmin role) sender s $ Ok (_grantRole role account sender s).

(** Modelled from the spec: [revokeRole] of AccessControl, by which Admin
    takes a role back. *)
Definition revokeRole (sender : address) (role : Role) (account : address)
    (s : State) : Result State :=
  onlyRole (getRoleAdmin role) sender s $ Ok (_revokeRole role account sender s).

(** ** The outbound transfer

    A call that carries ether and no data hands control to the recipient.
    The primitive answers [None] when the call reports failure (the state
    is then the one before the call) and [Some s'] when it reports success,
    [s'] being the state after whatever the recipient did meanwhile. *)
Definition CallValue := address → uint256 → State → option State.

(** ** Entry points *)

Section EntryPoints.

Variable call : CallValue.
Variable sender : address.      (* msg.sender *)
Variable now : uint256.         (* block.timestamp *)

Definition createProject (title description : string)
    (goalAmount durationInDays : uint256) (s : State) : Result State :=
  whenNotPaused s $ onlyRole PROJECT_CREATOR_ROLE sender s $
  require (0 <? goalAmount) "Goal amount must be greater than 0";;
  d ← checked_mul durationInDays (1 * days);
  require (MINIMUM_FUNDING_PERIOD <=? d) "Duration too short";;
  d ← checked_mul durationInDays (1 * days);
  require (d <=? MAXIMUM_FUNDING_PERIOD) "Duration too long";;
  let projectId := projectCount s in
  count ← checked_add (projectCount s) 1;
  let s := set_projectCount count s in
  d ← checked_mul durationInDays (1 * days);
  deadline ← checked_add now d;
  let slot := getProject s projectId in
  let newProject :=
    mkProject title description sender goalAmount (currentAmount slot)
      deadline Active (fundsReleased slot) (totalExpenses slot) now in
  let s := setProject projectId newProject s in
  Ok (emit (ProjectCreated projectId title sender goalAmount deadline) s).

(** [payable]: the value sent with the call is in the balance from the
    first instruction on. *)
Definition contribute (value : uint256) (projectId : uint256) (s : State)
  : Result State :=
  let s := set_balance (balance s + value) s in
  whenNotPaused s $ nonReentrant s $ λ s,
  let project := getProject s projectId in
  require (negb (creator project =? 0)) "Project does not exist";;
  require (bool_decide (status project = Active)) "Project is not active";;
  require (now <? deadline project) "Project funding period has ended";;
  require (MINIMUM_CONTRIBUTION <=? value) "Contribution too small";;
  total ← checked_add (currentAmount project) value;
  require (total <=? goalAmount project) "Exceeds project goal";;
  current ← checked_add (currentAmount project) value;
  let s := setProject projectId (with_currentAmount current project) s in
  aggregate ← checked_add (getContribution s projectId sender) value;
  let s := set_contributions
             (<[(projectId, sender) := aggregate]> (contributions s)) s in
  let s := set_projectContributions
             (<[projectId := getProjectContributions s projectId
                               ++ [mkContribution sender value now]]>
                (projectContributions s)) s in
  Ok (emit (ContributionMade projectId sender value) s).

Definition submitExpense (projectId : uint256) (description : string)
    (amount : uint256) (category : ExpenseCategory) (proofUrl : string)
    (s : State) : Result State :=
  whenNotPaused s $
  let project := getProject s projectId in
  require (sender =? creator project) "Only creator can submit expenses";;
  require (negb (bool_decide (status project = Cancelled))) "Project is cancelled";;
  needed ← checked_add (totalExpenses project) amount;
  require (needed <=? currentAmount project) "Insufficient funds";;
  let s := setExpenses projectId
             (getProjectExpenses s projectId
                ++ [mkExpense description amount category now false proofUrl]) s in
  expenseIndex ← checked_sub (N.of_nat (length (getProjectExpenses s projectId))) 1;
  Ok (emit (ExpenseSubmitted projectId expenseIndex description amount) s).

Definition approveExpense (projectId expenseIndex : uint256) (s : State)
  : Result State :=
  onlyRole DEFAULT_ADMIN_ROLE sender s $
  require (negb (bool_decide (status (getProject s projectId) = Cancelled)))
    "Project is cancelled";;
  match getProjectExpenses s projectId !! N.to_nat expenseIndex with
  | None => Revert (Panic 0x32)
  | Some expense =>
      require (negb (approved expense)) "Expense already approved";;
      let s := setExpenses projectId
                 (<[N.to_nat expenseIndex := with_approved true expense]>
                    (getProjectExpenses s projectId)) s in
      total ← checked_add (totalExpenses (getProject s projectId)) (amount expense);
      let s := setProject projectId
                 (with_totalExpenses total (getProject s projectId)) s in
      match call (creator (getProject s projectId)) (amount expense) s with
      | None => Revert (Reason "Transfer failed")
      | Some s =>
          let s := emit (ExpenseApproved projectId expenseIndex) s in
          let released :=
            default 0 (amount <$> getProjectExpenses s projectId !! N.to_nat expenseIndex) in
          Ok (emit (FundsReleased projectId released) s)
      end
  end.

Definition completeProject (projectId : uint256) (s : State) : Result State :=
  onlyRole DEFAULT_ADMIN_ROLE sender s $
  let project := getProject s projectId in
  require (bool_decide (status project = Active)) "Project not active";;
  let s := setProject projectId (with_status Completed project) s in
  Ok (emit (ProjectCompleted projectId) s).

Definition cancelProject (projectId : uint256) (s : State) : Result State :=
  onlyRole DEFAULT_ADMIN_ROLE sender s $
  let project := getProject s projectId in
  require (bool_decide (status project = Active)) "Project not active";;
  let s := setProject projectId (with_status Cancelled project) s in
  Ok (emit (ProjectCancelled projectId) s).

Definition claimRefund (projectId : uint256) (s : State) : Result State :=
  nonReentrant s $ λ s,
  require (bool_decide (status (getProject s projectId) = Cancelled))
    "Project not cancelled";;
  let contributionAmount := getContribution s projectId sender in
  require (0 <? contributionAmount) "No contribution found";;
  require (negb (getRefundClaimed s projectId sender)) "Refund already claimed";;
  let s := set_refundClaimed
             (<[(projectId, sender) := true]> (refundClaimed s)) s in
  match call sender contributionAmount s with
  | None => Revert (Reason "Transfer failed")
  | Some s => Ok (emit (RefundClaimed projectId sender contributionAmount) s)
  end.

Definition pause (s : State) : Result State :=
  onlyRole DEFAULT_ADMIN_ROLE sender s $ whenNotPaused s $
  Ok (emit (Paused sender) (set_paused true s)).

Definition unpause (s : State) : Result State :=
  onlyRole DEFAULT_ADMIN_ROLE sender s $ whenPaused s $
  Ok (emit (Unpaused sender) (set_paused false s)).

Definition grantProjectCreatorRole (account : address) (s : State)
  : Result State :=
  onlyRole DEFAULT_ADMIN_ROLE sender s $
  grantRole sender PROJECT_CREATOR_ROLE account s.

(** [receive()]: a plain transfer of ether to the contract. *)
Definition receive (value : uint256) (s : State) : Result State :=
  Revert (Reason "Direct deposits not accepted").

End EntryPoints.

(** The constructor: the deployer receives both roles. *)
Definition emptyState : State :=
  mkState ∅ ∅ ∅ ∅ ∅ 0 false false ∅ 0 [].

Definition constructor (sender : address) : State :=
  _grantRole PROJECT_CREATOR_ROLE sender sender
    (_grantRole DEFAULT_ADMIN_ROLE sender sender emptyState).

(** ** Calls from the outside and code at the recipients *)

Inductive Action :=
| ActCreateProject (title description : string) (goalAmount durationInDays : uint256)
| ActContribute (projectId value : uint256)
| ActSubmitExpense (projectId : uint256) (description : string) (amount : uint256)
    (category : ExpenseCategory) (proofUrl : string)
| ActApproveExpense (projectId expenseIndex : uint256)
| ActCompleteProject (projectId : uint256)
| ActCancelProject (projectId : uint256)
| ActClaimRefund (projectId : uint256)
| ActPause
| ActUnpause
| ActGrantProjectCreatorRole (account : address)
| ActGrantRole (role : Role) (account : address)
| ActRevokeRole (role : Role) (account : address)
| ActReceive (value : uint256).

(** What the code at an address does when it receives ether: accept, refuse
    (revert), read the state of the ledger, or have a call made into the
    ledger (by itself or by a contract it calls in turn: [caller] is the
    sender the ledger sees) and go on according to the outcome. *)
Inductive Script :=
| Accept
| Reject
| Inspect (k : State → Script)
| CallBack (caller : address) (a : Action) (onOk onRevert : Script).

(** None of the state-changing functions declares [returns]: the return
    data of a successful call is empty. *)
Definition returnsNothing (r : Result State) : Result (list uint256 * State) :=
  s ← r; Ok ([], s).

Definition dispatch (call : CallValue) (sender : address) (now : uint256)
    (a : Action) (s : State) : Result (list uint256 * State) :=
  match a with
  | ActCreateProject t d g n => returnsNothing (createProject sender now t d g n s)
  | ActContribute pid v => returnsNothing (contribute sender now v pid s)
  | ActSubmitExpense pid d amt c u =>
      returnsNothing (submitExpense sender now pid d amt c u s)
  | ActApproveExpense pid i => returnsNothing (approveExpense call sender pid i s)
  | ActCompleteProject pid => returnsNothing (completeProject sender pid s)
  | ActCancelProject pid => returnsNothing (cancelProject sender pid s)
  | ActClaimRefund pid => returnsNothing (claimRefund call sender pid s)
  | ActPause => returnsNothing (pause sender s)
  | ActUnpause => returnsNothing (unpause sender s)
  | ActGrantProjectCreatorRole a => returnsNothing (grantProjectCreatorRole sender a s)
  | ActGrantRole r a => returnsNothing (grantRole sender r a s)
  | ActRevokeRole r a => returnsNothing (revokeRole sender r a s)
  | ActReceive v => returnsNothing (receive v s)
  end.

Section Execution.

(** The code deployed at each address ([Accept] for a plain account). *)
Variable code : address → Script.

(** The recipient runs its script; a call back that reverts leaves the
    state as it was before that call, and a script that ends in [Reject]
    makes the whole transfer fail. *)
Fixpoint runScript (enter : address → Action → State → Result (list uint256 * State))
    (sc : Script) (s : State) : option State :=
  match sc with
  | Accept => Some s
  | Reject => None
  | Inspect k => runScript enter (k s) s
  | CallBack caller a onOk onRevert =>
      match enter caller a s with
      | Ok (_, s') => runScript enter onOk s'
      | Revert _ => runScript enter onRevert s
      end
  end.

(** A transfer fails when the balance does not cover it or the recipient
    refuses; otherwise the amount leaves the balance before the recipient
    runs. *)
Definition send (recipient : address → State → option State) : CallValue :=
  λ to v s,
    if balance s <? v then None
    else recipient to (set_balance (balance s - v) s).

(** [depth] bounds the nesting of calls (the call stack of the machine is
    bounded): at depth 0 an outbound call fails. *)
Fixpoint exec (depth : nat) (now : uint256) (sender : address) (a : Action)
    (s : State) : Result (list uint256 * State) :=
  dispatch
    (send (λ to s',
       match depth with
       | O => None
       | S d => runScript (exec d now) (code to) s'
       end))
    sender now a s.

(** The outbound transfer as a call made at depth [depth] performs it. *)
Definition transfer (depth : nat) (now : uint256) : CallValue :=
  send (λ to s',
    match depth with
    | O => None
    | S d => runScript (exec d now) (code to) s'
    end).

(** A transaction: a failed one leaves the state untouched. *)
Record Tx := mkTx {
  tx_sender : address;
  tx_timestamp : uint256;
  tx_depth : nat;
  tx_action : Action
}.

Definition transact (s : State) (tx : Tx) : State :=
  match exec (tx_depth tx) (tx_timestamp tx) (tx_sender tx) (tx_action tx) s with
  | Ok (_, s') => s'
  | Revert _ => s
  end.

Definition replay (s : State) (txs : list Tx) : State := foldl transact s txs.

End Execution.


(** * Specification predicates *)

(** What no call can undo: the project counter never decreases, a call
    leaves the guard flag as it found it, a terminal status stays, the
    books of a cancelled project are frozen, and a refund claim stays
    recorded. *)
Record evolves (s s' : State) : Prop := mkEvolves {
  ev_count : projectCount s ≤ projectCount s';
  ev_lock : _status s' = _status s;
  ev_terminal : ∀ pid, pid < projectCount s →
    status (getProject s pid) ≠ Active →
    status (getProject s' pid) = status (getProject s pid);
  ev_cancelled : ∀ pid, pid < projectCount s →
    status (getProject s pid) = Cancelled →
    getProjectExpenses s' pid = getProjectExpenses s pid
    ∧ totalExpenses (getProject s' pid) = totalExpenses (getProject s pid)
    ∧ currentAmount (getProject s' pid) = currentAmount (getProject s pid)
    ∧ ∀ a, getContribution s' pid a = getContribution s pid a;
  ev_claimed : ∀ pid a, getRefundClaimed s pid a = true →
    getRefundClaimed s' pid a = true
}.


(** The sum of the contributions logged for a project. *)
Definition contributed (s : State) (projectId : N) : N :=
  foldr (λ c acc, ctr_amount c + acc) 0 (getProjectContributions s projectId).

(** The books of the contribution ledger are in order: the amount raised is
    the sum of the logged contributions and stays within the goal, and the
    slots beyond the project counter are still blank. *)
Record ledger_ok (s : State) : Prop := mkLedgerOk {
  lo_sum : ∀ pid, contributed s pid = currentAmount (getProject s pid);
  lo_goal : ∀ pid,
    currentAmount (getProject s pid) ≤ goalAmount (getProject s pid);
  lo_fresh : ∀ pid, projectCount s ≤ pid →
    creator (getProject s pid) = 0 ∧ currentAmount (getProject s pid) = 0
}.

Definition keeps_ledger (s s' : State) : Prop := ledger_ok s → ledger_ok s'.

(** The state [approveExpense] has reached when it issues the transfer:
    the expense is flagged approved and its amount is in the approved total. *)
Definition approvalStaged (projectId expenseIndex : N) (e : Expense) (s : State)
  : State :=
  setProject projectId
    (with_totalExpenses (totalExpenses (getProject s projectId) + amount e)
       (getProject s projectId))
    (setExpenses projectId
       (<[N.to_nat expenseIndex := with_approved true e]> (getProjectExpenses s projectId))
       s).

(** What [approveExpense] makes of the state the transfer hands back. *)
Definition approvalDone (projectId expenseIndex : N) (s : State) : State :=
  let s := emit (ExpenseApproved projectId expenseIndex) s in
  emit (FundsReleased projectId
          (default 0 (amount <$> getProjectExpenses s projectId !! N.to_nat expenseIndex)))
    s.

(** The state [claimRefund] has reached when it issues the transfer: the
    guard is set and the claim is recorded. *)
Definition refundStaged (projectId : N) (claimant : address) (s : State) : State :=
  set_refundClaimed (<[(projectId, claimant) := true]> (refundClaimed s))
    (set_status true s).

(** What [claimRefund] makes of the state the transfer hands back. *)
Definition refundDone (projectId : N) (claimant : address) (refund : uint256)
    (s : State) : State :=
  set_status false (emit (RefundClaimed projectId claimant refund) s).

(** * Concrete scenarios *)

(** Every address is a plain account. *)
Definition plain : address → Script := λ _, Accept.

(** Account 1 deploys, creates a project with a goal of 100 ether running
    for 10 days, and account 2 contributes 40 ether twice. *)
Definition deployed : State := constructor 1.

Definition created : State :=
  transact plain deployed (mkTx 1 1000 1 (ActCreateProject "t" "d" (100 * ether) 10)).

Definition funded : State :=
  replay plain created
    [mkTx 2 1001 1 (ActContribute 0 (40 * ether));
     mkTx 2 1002 1 (ActContribute 0 (40 * ether))].

Definition cancelled : State :=
  transact plain funded (mkTx 1 1003 1 (ActCancelProject 0)).

Definition refunded : State :=
  transact plain cancelled (mkTx 2 1004 1 (ActClaimRefund 0)).

(** The creator has submitted an expense of 50 ether. *)
Definition expense50 : Expense :=
  mkExpense "x" (50 * ether) Development 1003 false "u".

Definition pending : State :=
  transact plain funded
    (mkTx 1 1003 1 (ActSubmitExpense 0 "x" (50 * ether) Development "u")).

Definition paused_pending : State :=
  transact plain pending (mkTx 1 1004 1 ActPause).

(** Account 1 refuses ether. *)
Definition refusing : address → Script :=
  λ who, if who =? 1 then Reject else Accept.

(** Two projects of 100 ether, 80 ether raised by each; the creator of the
    first submits two expenses of 50 ether before either is approved, and
    the admin then approves both. *)
Definition overdraw_setup : list Tx :=
  [mkTx 1 1000 1 (ActCreateProject "A" "d" (100 * ether) 10);
   mkTx 1 1000 1 (ActCreateProject "B" "d" (100 * ether) 10);
   mkTx 2 1001 1 (ActContribute 0 (80 * ether));
   mkTx 2 1001 1 (ActContribute 1 (80 * ether));
   mkTx 1 1002 1 (ActSubmitExpense 0 "x" (50 * ether) Development "u");
   mkTx 1 1002 1 (ActSubmitExpense 0 "y" (50 * ether) Development "u")].

Definition overdraw_approvals : list Tx :=
  [mkTx 1 1003 1 (ActApproveExpense 0 0);
   mkTx 1 1003 1 (ActApproveExpense 0 1)].

(** Account 1 is a contract that, on receiving ether, calls back into the
    ledger with [a]. *)
Definition reentering (a : Action) : address → Script :=
  λ who, if who =? 1 then CallBack 1 a Accept Accept else Accept.

Definition two_pending : State :=
  replay plain funded
    [mkTx 1 1003 1 (ActSubmitExpense 0 "x" (30 * ether) Development "u");
     mkTx 1 1003 1 (ActSubmitExpense 0 "y" (30 * ether) Development "u")].

(** * Further specification predicates *)

(** An expense entry is kept: nothing in it changes, except that its
    approval flag may go from false to true. *)
Definition expense_kept (e e' : Expense) : Prop :=
  exp_description e' = exp_description e
  ∧ amount e' = amount e
  ∧ category e' = category e
  ∧ exp_timestamp e' = exp_timestamp e
  ∧ proofUrl e' = proofUrl e
  ∧ (approved e = true → approved e' = true).

(** The books only grow: logs are appended to, recorded amounts never
    decrease, the terms of a created project are fixed, and the
    [fundsReleased] flag is never written. *)
Record ledger_grows (s s' : State) : Prop := mkLedgerGrows {
  lg_count : projectCount s ≤ projectCount s';
  lg_expenses : ∀ pid i e,
    getProjectExpenses s pid !! i = Some e →
    ∃ e', getProjectExpenses s' pid !! i = Some e' ∧ expense_kept e e';
  lg_log : ∀ pid,
    getProjectContributions s pid `prefix_of` getProjectContributions s' pid;
  lg_aggregate : ∀ pid a, getContribution s pid a ≤ getContribution s' pid a;
  lg_raised : ∀ pid,
    currentAmount (getProject s pid) ≤ currentAmount (getProject s' pid);
  lg_spent : ∀ pid,
    totalExpenses (getProject s pid) ≤ totalExpenses (getProject s' pid);
  lg_flag : ∀ pid,
    fundsReleased (getProject s' pid) = fundsReleased (getProject s pid);
  lg_terms : ∀ pid, pid < projectCount s →
    title (getProject s' pid) = title (getProject s pid)
    ∧ description (getProject s' pid) = description (getProject s pid)
    ∧ creator (getProject s' pid) = creator (getProject s pid)
    ∧ goalAmount (getProject s' pid) = goalAmount (getProject s pid)
    ∧ deadline (getProject s' pid) = deadline (getProject s pid)
    ∧ createdAt (getProject s' pid) = createdAt (getProject s pid)
}.

(** The sum of the amounts of the approved expenses of a list. *)
Definition approved_total (l : list Expense) : N :=
  foldr (λ e acc, if approved e then amount e + acc else acc) 0 l.

(** The sum of the contributions of one account in a log. *)
Definition contributed_by (a : address) (l : list Contribution) : N :=
  foldr (λ c acc, if contributor c =? a then ctr_amount c + acc else acc) 0 l.

(** The derived figures agree with the lists they summarize. *)
Record books_ok (s : State) : Prop := mkBooksOk {
  bo_spent : ∀ pid,
    totalExpenses (getProject s pid) = approved_total (getProjectExpenses s pid);
  bo_aggregate : ∀ pid a,
    getContribution s pid a = contributed_by a (getProjectContributions s pid);
  bo_flag : ∀ pid, fundsReleased (getProject s pid) = false
}.

Definition keeps_books (s s' : State) : Prop := books_ok s → books_ok s'.

(** Ether received and ether paid out, as the log records them. *)
Definition paid_in (evs : list Event) : N :=
  foldr (λ ev acc, match ev with
                   | ContributionMade _ _ v => v + acc
                   | _ => acc
                   end) 0 evs.

Definition paid_out (evs : list Event) : N :=
  foldr (λ ev acc, match ev with
                   | FundsReleased _ v => v + acc
                   | RefundClaimed _ _ v => v + acc
                   | _ => acc
                   end) 0 evs.

(** Between [s] and [s'] the balance moved by exactly what the log says came
    in and went out. *)
Definition conserves (s s' : State) : Prop :=
  balance s' + paid_out (events s') + paid_in (events s)
  = balance s + paid_out (events s) + paid_in (events s').

(** The balance is accounted for and the books have only grown. *)
Definition accounted (s s' : State) : Prop := conserves s s' ∧ ledger_grows s s'.

(** Two states that differ at most in their logs. *)
Definition same_storage (s s' : State) : Prop :=
  projects s = projects s'
  ∧ projectExpenses s = projectExpenses s'
  ∧ projectContributions s = projectContributions s'
  ∧ contributions s = contributions s'
  ∧ refundClaimed s = refundClaimed s'
  ∧ projectCount s = projectCount s'
  ∧ _paused s = _paused s'
  ∧ _status s = _status s'
  ∧ _roles s = _roles s'
  ∧ balance s = balance s'.

(** The project an action is about, if it is about one. *)
Definition target (a : Action) : option N :=
  match a with
  | ActContribute pid _ => Some pid
  | ActSubmitExpense pid _ _ _ _ => Some pid
  | ActApproveExpense pid _ => Some pid
  | ActCompleteProject pid => Some pid
  | ActCancelProject pid => Some pid
  | ActClaimRefund pid => Some pid
  | _ => None
  end.

(** ** Further scenarios *)

(** The pending expense of 50 ether has been approved and paid. *)
Definition paid : State :=
  transact plain pending (mkTx 1 1005 1 (ActApproveExpense 0 0)).

(** A last contribution of 20 ether has brought the project to its goal. *)
Definition fully_funded : State :=
  transact plain funded (mkTx 3 1003 1 (ActContribute 0 (20 * ether))).

(** The two projects of the overdraw scenario, before any approval. *)
Definition two_projects : State := replay plain deployed overdraw_setup.

(** ** Payouts of a cancelled project, and the shared balance *)

(** The event is no approval and no payout of an expense of project [pid]. *)
Definition no_payout (pid : N) (ev : Event) : Prop :=
  match ev with
  | ExpenseApproved p _ => p ≠ pid
  | FundsReleased p _ => p ≠ pid
  | _ => True
  end.

(** The log was only extended, and with no approval or payout for any
    project that was created and Cancelled at the start. *)
Definition quiet (s s' : State) : Prop :=
  ∃ new, events s' = events s ++ new
         ∧ ∀ pid, pid < projectCount s →
                  status (getProject s pid) = Cancelled →
                  Forall (no_payout pid) new.

Definition settled (s s' : State) : Prop := evolves s s' ∧ quiet s s'.

(** The admin cancels id 0 before any project exists, then creates the
    first project, which gets id 0, and completes it. *)
Definition precancelled : State :=
  transact plain deployed (mkTx 1 1000 1 (ActCancelProject 0)).

Definition revived : State :=
  transact plain precancelled
    (mkTx 1 1001 1 (ActCreateProject "t" "d" (100 * ether) 10)).

Definition recompleted : State :=
  transact plain revived (mkTx 1 1002 1 (ActCompleteProject 0)).

(** The project is cancelled while its expense of 50 ether is pending. *)
Definition cancelled_pending : State :=
  transact plain pending (mkTx 1 1004 1 (ActCancelProject 0)).

(** Two projects: account 2 contributes 80 ether to the first, account 3
    contributes 80 ether to the second, of which an expense of 50 ether is
    paid; then the first project is cancelled. *)
Definition shared_pool_setup : list Tx :=
  [mkTx 1 1000 1 (ActCreateProject "A" "d" (100 * ether) 10);
   mkTx 1 1000 1 (ActCreateProject "B" "d" (100 * ether) 10);
   mkTx 2 1001 1 (ActContribute 0 (80 * ether));
   mkTx 3 1001 1 (ActContribute 1 (80 * ether));
   mkTx 1 1002 1 (ActSubmitExpense 1 "x" (50 * ether) Development "u");
   mkTx 1 1003 1 (ActApproveExpense 1 0);
   mkTx 1 1004 1 (ActCancelProject 0)].

Definition first_cancelled : State := replay plain deployed shared_pool_setup.

(** The second project is cancelled too and its contributor is refunded. *)
Definition pool_drained : State :=
  replay plain first_cancelled
    [mkTx 1 1005 1 (ActCancelProject 1);
     mkTx 3 1006 1 (ActClaimRefund 1)].
(** * Reasoning about successful calls *)

Lemma bind_Ok {A B} (r : Result A) (k : A → Result B) (b : B) :
  r ≫= k = Ok b ↔ ∃ a, r = Ok a ∧ k a = Ok b.
Proof.
  destruct r as [a|e]; simpl; split.
  - intros H. exists a. auto.
  - intros (a' & [= ->] & H). exact H.
  - discriminate.
  - intros (a' & [=] & _).
Qed.

Lemma require_Ok (c : bool) (msg : string) (u : unit) :
  require c msg = Ok u ↔ c = true.
Proof. destruct c, u; simpl; split; intros; try done. Qed.

Lemma checked_add_Ok (a b c : N) :
  checked_add a b = Ok c ↔ c = a + b ∧ a + b ≤ uint256_max.
Proof.
  unfold checked_add. destruct (N.leb_spec (a + b) uint256_max); split.
  - intros [= <-]. auto.
  - intros [-> _]. reflexivity.
  - discriminate.
  - intros [_ ?]. lia.
Qed.

Lemma checked_mul_Ok (a b c : N) :
  checked_mul a b = Ok c ↔ c = a * b ∧ a * b ≤ uint256_max.
Proof.
  unfold checked_mul. destruct (N.leb_spec (a * b) uint256_max); split.
  - intros [= <-]. auto.
  - intros [-> _]. reflexivity.
  - discriminate.
  - intros [_ ?]. lia.
Qed.

Lemma checked_sub_Ok (a b c : N) :
  checked_sub a b = Ok c ↔ c = a - b ∧ b ≤ a.
Proof.
  unfold checked_sub. destruct (N.leb_spec b a); split.
  - intros [= <-]. auto.
  - intros [-> _]. reflexivity.
  - discriminate.
  - intros [_ ?]. lia.
Qed.

Lemma whenNotPaused_Ok {A} (s : State) (body : Result A) (a : A) :
  whenNotPaused s body = Ok a ↔ _paused s = false ∧ body = Ok a.
Proof.
  unfold whenNotPaused. destruct (_paused s); split;
    try discriminate; try tauto; intros [? ?]; discriminate.
Qed.

Lemma whenPaused_Ok {A} (s : State) (body : Result A) (a : A) :
  whenPaused s body = Ok a ↔ _paused s = true ∧ body = Ok a.
Proof.
  unfold whenPaused. destruct (_paused s); split;
    try discriminate; try tauto; intros [? ?]; discriminate.
Qed.

Lemma onlyRole_Ok {A} (role : Role) (sender : address) (s : State)
    (body : Result A) (a : A) :
  onlyRole role sender s body = Ok a ↔ hasRole s role sender = true ∧ body = Ok a.
Proof.
  unfold onlyRole. destruct (hasRole s role sender); split;
    try discriminate; try tauto; intros [? ?]; discriminate.
Qed.

Lemma nonReentrant_Ok (s : State) (body : State → Result State) (s' : State) :
  nonReentrant s body = Ok s' ↔
  _status s = false ∧ ∃ s1, body (set_status true s) = Ok s1 ∧ s' = set_status false s1.
Proof.
  unfold nonReentrant. destruct (_status s).
  - split; [discriminate | intros [? _]; discriminate].
  - rewrite bind_Ok. split.
    + intros (s1 & H1 & [= <-]). eauto.
    + intros (_ & s1 & H1 & ->). eauto.
Qed.

Lemma returnsNothing_Ok (r : Result State) (ret : list uint256) (s' : State) :
  returnsNothing r = Ok (ret, s') ↔ ret = [] ∧ r = Ok s'.
Proof.
  unfold returnsNothing. rewrite bind_Ok. split.
  - intros (s1 & H1 & [= <- <-]). auto.
  - intros (-> & H1). eauto.
Qed.

(** Peel the modifiers, [require]s and checked operations off a hypothesis
    that says a call succeeded. *)
Ltac ok_inv :=
  repeat match goal with
  | H : returnsNothing _ = Ok _ |- _ => apply returnsNothing_Ok in H as [-> H]
  | H : whenNotPaused _ _ = Ok _ |- _ => apply whenNotPaused_Ok in H as [? H]
  | H : whenPaused _ _ = Ok _ |- _ => apply whenPaused_Ok in H as [? H]
  | H : onlyRole _ _ _ _ = Ok _ |- _ => apply onlyRole_Ok in H as [? H]
  | H : nonReentrant _ _ = Ok _ |- _ =>
      apply nonReentrant_Ok in H as (? & ? & H & ->); cbv beta zeta in H
  | H : _ ≫= _ = Ok _ |- _ => apply bind_Ok in H as (? & ? & H); cbv beta zeta in H
  | H : require _ _ = Ok _ |- _ => apply require_Ok in H
  | H : checked_add _ _ = Ok _ |- _ => apply checked_add_Ok in H as [-> ?]
  | H : checked_mul _ _ = Ok _ |- _ => apply checked_mul_Ok in H as [-> ?]
  | H : checked_sub _ _ = Ok _ |- _ => apply checked_sub_Ok in H as [-> ?]
  | H : Ok _ = Ok _ |- _ => injection H as <-
  | H : Revert _ = Ok _ |- _ => discriminate H
  | H : match ?x with _ => _ end = Ok _ |- _ => destruct x eqn:?
  end.

(** Reads through writes: expose the maps behind the getters and setters. *)
Ltac storage :=
  unfold getProject, getProjectExpenses, getProjectContributions, getContribution,
    getRefundClaimed, hasRole in *;
  cbn [projects projectExpenses projectContributions contributions
       refundClaimed projectCount _paused _status _roles balance events
       setProject setExpenses emit set_projects set_projectExpenses
       set_projectContributions set_contributions set_refundClaimed
       set_projectCount set_paused set_status set_roles set_balance
       with_currentAmount with_status with_totalExpenses
       title description creator goalAmount currentAmount deadline status
       fundsReleased totalExpenses createdAt from_option id] in *.

(** ** Lifting a step property to nested calls and to transaction sequences

    A reflexive and transitive relation that every entry point respects,
    provided the outbound transfer it may perform respects it, is respected
    by every call at every depth whatever code sits at the recipients, hence
    by every sequence of transactions. *)
Section Lifting.

Variable code : address → Script.
Variable R : State → State → Prop.

Hypothesis R_refl : ∀ s, R s s.
Hypothesis R_trans : ∀ s1 s2 s3, R s1 s2 → R s2 s3 → R s1 s3.
Hypothesis R_balance : ∀ b s, R s (set_balance b s).
Hypothesis R_dispatch :
  ∀ (call : CallValue) sender now a s ret s',
    (∀ to v s0 s1, call to v s0 = Some s1 → R s0 s1) →
    dispatch call sender now a s = Ok (ret, s') → R s s'.

Lemma runScript_lift enter :
  (∀ who a s ret s', enter who a s = Ok (ret, s') → R s s') →
  ∀ sc s s', runScript enter sc s = Some s' → R s s'.
Proof.
  intros Henter sc.
  induction sc as [| |k IH|who a onOk IHok onRevert IHrev]; intros s s' Hrun;
    simpl in Hrun.
  - injection Hrun as <-. apply R_refl.
  - discriminate.
  - eapply IH, Hrun.
  - destruct (enter who a s) as [[ret s1]|e] eqn:Hcall.
    + eapply R_trans; [eapply Henter, Hcall | eapply IHok, Hrun].
    + eapply IHrev, Hrun.
Qed.

Lemma send_lift recipient :
  (∀ to s s', recipient to s = Some s' → R s s') →
  ∀ to v s s', send recipient to v s = Some s' → R s s'.
Proof.
  intros Hrec to v s s'. unfold send.
  destruct (balance s <? v); [discriminate|].
  intros H. eapply R_trans; [apply R_balance | eapply Hrec, H].
Qed.

Lemma exec_lift depth :
  ∀ now sender a s ret s',
    exec code depth now sender a s = Ok (ret, s') → R s s'.
Proof.
  induction depth as [|d IH]; intros now sender a s ret s' H; simpl in H.
  - eapply R_dispatch, H. apply send_lift. discriminate.
  - eapply R_dispatch, H. apply send_lift.
    intros to s0 s1. apply runScript_lift. intros who; apply IH.
Qed.

Lemma transfer_lift depth now :
  ∀ to v s s', transfer code depth now to v s = Some s' → R s s'.
Proof.
  unfold transfer. apply send_lift. destruct depth as [|d].
  - discriminate.
  - intros to s0 s1. apply runScript_lift. intros who; apply exec_lift.
Qed.

Lemma transact_lift s tx : R s (transact code s tx).
Proof.
  unfold transact.
  destruct (exec code _ _ _ _ s) as [[ret s']|e] eqn:H.
  - eapply exec_lift, H.
  - apply R_refl.
Qed.

Lemma replay_lift txs : ∀ s, R s (replay code s txs).
Proof.
  induction txs as [|tx txs IH]; intros s; simpl.
  - apply R_refl.
  - eapply R_trans; [apply transact_lift | apply IH].
Qed.

End Lifting.

(** ** What no call can undo *)

Lemma evolves_refl s : evolves s s.
Proof. split; auto; lia. Qed.

Lemma evolves_trans s1 s2 s3 : evolves s1 s2 → evolves s2 s3 → evolves s1 s3.
Proof.
  intros [c1 l1 t1 k1 r1] [c2 l2 t2 k2 r2]. split.
  - lia.
  - congruence.
  - intros pid Hlt Hst. rewrite <- (t1 pid Hlt Hst). apply t2; [lia|].
    rewrite (t1 pid Hlt Hst). exact Hst.
  - intros pid Hlt Hst.
    assert (Hst2 : status (getProject s2 pid) = Cancelled).
    { rewrite (t1 pid Hlt); congruence. }
    destruct (k1 pid Hlt Hst) as (E1 & T1 & C1 & Hc1).
    destruct (k2 pid ltac:(lia) Hst2) as (E2 & T2 & C2 & Hc2).
    repeat split; try congruence; intros a; rewrite Hc2; apply Hc1.
  - auto.
Qed.

Lemma evolves_balance b s : evolves s (set_balance b s).
Proof. split; storage; auto; lia. Qed.

(** Case analysis on the keys of the map updates in sight. *)
Ltac map_cases :=
  repeat match goal with
  | |- context [<[?i := _]> _ !! ?j] =>
      destruct (decide (i = j));
        [simplify_eq; rewrite ?lookup_insert_eq in *
        |rewrite ?lookup_insert_ne in * by done]
  | H : context [<[?i := _]> _ !! ?j] |- _ =>
      destruct (decide (i = j));
        [simplify_eq; rewrite ?lookup_insert_eq in *
        |rewrite ?lookup_insert_ne in * by done]
  end.

Ltac bool_facts :=
  repeat match goal with
  | H : negb _ = true |- _ => apply negb_true_iff in H
  | H : bool_decide _ = true |- _ => apply bool_decide_eq_true in H
  | H : bool_decide _ = false |- _ => apply bool_decide_eq_false in H
  | H : (_ <? _) = true |- _ => apply N.ltb_lt in H
  | H : (_ <? _) = false |- _ => apply N.ltb_ge in H
  | H : (_ <=? _) = true |- _ => apply N.leb_le in H
  | H : (_ <=? _) = false |- _ => apply N.leb_gt in H
  | H : (_ =? _) = true |- _ => apply N.eqb_eq in H
  | H : (_ =? _) = false |- _ => apply N.eqb_neq in H
  end.

Ltac frame_tac :=
  storage; intros; repeat (split; intros); map_cases; storage;
  try done; try congruence; try lia.

Lemma evolves_dispatch (call : CallValue) sender now a s ret s' :
  (∀ to v s0 s1, call to v s0 = Some s1 → evolves s0 s1) →
  dispatch call sender now a s = Ok (ret, s') → evolves s s'.
Proof.
  intros Hcall H. destruct a; simpl in H.
  - unfold createProject in H. cbv zeta in H. ok_inv. split; frame_tac.
  - unfold contribute in H. cbv zeta in H. ok_inv. storage. bool_facts.
    split; frame_tac.
  - unfold submitExpense in H. cbv zeta in H. ok_inv. storage. bool_facts.
    split; frame_tac.
  - unfold approveExpense in H. cbv zeta in H. ok_inv. storage. bool_facts.
    match goal with Hc : call _ _ _ = Some _ |- _ =>
      apply Hcall in Hc as [c l t k r] end.
    split; storage; intros; try done;
      try (apply r; frame_tac; fail);
      try (specialize (t pid); frame_tac; auto; fail);
      specialize (k pid); frame_tac; auto; apply k; auto.
  - unfold completeProject in H. cbv zeta in H. ok_inv. storage. bool_facts.
    split; frame_tac.
  - unfold cancelProject in H. cbv zeta in H. ok_inv. storage. bool_facts.
    split; frame_tac.
  - unfold claimRefund in H. cbv zeta in H. ok_inv. storage. bool_facts.
    match goal with Hc : call _ _ _ = Some _ |- _ =>
      apply Hcall in Hc as [c l t k r] end.
    split; storage; intros; try done;
      try (apply r; frame_tac; fail);
      try (specialize (t pid); frame_tac; auto; fail);
      specialize (k pid); frame_tac; auto; apply k; auto.
  - unfold pause in H. ok_inv. split; frame_tac.
  - unfold unpause in H. ok_inv. split; frame_tac.
  - unfold grantProjectCreatorRole, grantRole, _grantRole in H. ok_inv.
    destruct (hasRole s _ account); split; frame_tac.
  - unfold grantRole, _grantRole in H. ok_inv.
    destruct (hasRole s _ account); split; frame_tac.
  - unfold revokeRole, _revokeRole in H. ok_inv.
    destruct (hasRole s _ account); split; frame_tac.
  - discriminate.
Qed.

(** ** The contribution ledger *)

Lemma contributed_snoc (l : list Contribution) (c : Contribution) :
  foldr (λ c acc, ctr_amount c + acc) 0 (l ++ [c])
  = foldr (λ c acc, ctr_amount c + acc) 0 l + ctr_amount c.
Proof. induction l as [|x l IH]; simpl; lia. Qed.

Ltac ledger_tac Hsum Hgoal Hfresh :=
  split; intros pid; intros;
  pose proof (Hsum pid) as Hs; pose proof (Hgoal pid) as Hg;
  pose proof (Hfresh pid) as Hf;
  unfold contributed in *; storage; map_cases; storage;
  rewrite ?contributed_snoc; cbn [ctr_amount];
  try (destruct Hf as [? ?]; [lia|]); try done; try lia.

Lemma keeps_ledger_balance b s : keeps_ledger s (set_balance b s).
Proof. intros [Hsum Hgoal Hfresh]. split; intros pid; [apply Hsum|apply Hgoal|apply Hfresh]. Qed.

Lemma keeps_ledger_dispatch (call : CallValue) sender now a s ret s' :
  (∀ to v s0 s1, call to v s0 = Some s1 → keeps_ledger s0 s1) →
  dispatch call sender now a s = Ok (ret, s') → keeps_ledger s s'.
Proof.
  intros Hcall H [Hsum Hgoal Hfresh]. destruct a; simpl in H.
  - unfold createProject in H. cbv zeta in H. ok_inv. storage. bool_facts.
    ledger_tac Hsum Hgoal Hfresh.
  - unfold contribute in H. cbv zeta in H. ok_inv. storage. bool_facts.
    ledger_tac Hsum Hgoal Hfresh.
  - unfold submitExpense in H. cbv zeta in H. ok_inv. storage. bool_facts.
    ledger_tac Hsum Hgoal Hfresh.
  - unfold approveExpense in H. cbv zeta in H. ok_inv. storage. bool_facts.
    match goal with Hc : call _ _ ?st = Some _ |- _ =>
      apply Hcall in Hc; assert (ledger_ok st) as Hst
        by ledger_tac Hsum Hgoal Hfresh;
      apply Hc in Hst as [Hsum' Hgoal' Hfresh'] end.
    ledger_tac Hsum' Hgoal' Hfresh'.
  - unfold completeProject in H. cbv zeta in H. ok_inv. storage. bool_facts.
    ledger_tac Hsum Hgoal Hfresh.
  - unfold cancelProject in H. cbv zeta in H. ok_inv. storage. bool_facts.
    ledger_tac Hsum Hgoal Hfresh.
  - unfold claimRefund in H. cbv zeta in H. ok_inv. storage. bool_facts.
    match goal with Hc : call _ _ ?st = Some _ |- _ =>
      apply Hcall in Hc; assert (ledger_ok st) as Hst
        by ledger_tac Hsum Hgoal Hfresh;
      apply Hc in Hst as [Hsum' Hgoal' Hfresh'] end.
    ledger_tac Hsum' Hgoal' Hfresh'.
  - unfold pause in H. ok_inv. ledger_tac Hsum Hgoal Hfresh.
  - unfold unpause in H. ok_inv. ledger_tac Hsum Hgoal Hfresh.
  - unfold grantProjectCreatorRole, grantRole, _grantRole in H. ok_inv.
    destruct (hasRole s _ account); ledger_tac Hsum Hgoal Hfresh.
  - unfold grantRole, _grantRole in H. ok_inv.
    destruct (hasRole s _ account); ledger_tac Hsum Hgoal Hfresh.
  - unfold revokeRole, _revokeRole in H. ok_inv.
    destruct (hasRole s _ account); ledger_tac Hsum Hgoal Hfresh.
  - discriminate.
Qed.

Lemma ledger_ok_constructor deployer : ledger_ok (constructor deployer).
Proof.
  unfold constructor, _grantRole.
  split; intros pid; unfold contributed;
    repeat match goal with |- context [hasRole ?s ?r ?a] =>
      destruct (hasRole s r a) end;
    storage; rewrite ?lookup_empty; cbn; try done; lia.
Qed.

Lemma ledger_ok_replay code deployer txs :
  ledger_ok (replay code (constructor deployer) txs).
Proof.
  apply (replay_lift code keeps_ledger); unfold keeps_ledger; auto.
  - intros b s. apply keeps_ledger_balance.
  - intros call sender now a s ret s'. apply keeps_ledger_dispatch.
  - apply ledger_ok_constructor.
Qed.

Lemma exec_contribute code depth now sender pid v s :
  exec code depth now sender (ActContribute pid v) s
  = returnsNothing (contribute sender now v pid s).
Proof. destruct depth; reflexivity. Qed.

Lemma contribute_accepted sender now v pid s s' :
  contribute sender now v pid s = Ok s' →
  currentAmount (getProject s pid) + v ≤ goalAmount (getProject s pid)
  ∧ currentAmount (getProject s' pid) = currentAmount (getProject s pid) + v
  ∧ getContribution s' pid sender = getContribution s pid sender + v
  ∧ getProjectContributions s' pid
    = getProjectContributions s pid ++ [mkContribution sender v now].
Proof.
  intros H. unfold contribute in H. cbv zeta in H. ok_inv. storage. bool_facts.
  rewrite !lookup_insert_eq. storage. auto.
Qed.

Lemma contribute_over_goal sender now v pid s :
  goalAmount (getProject s pid) < currentAmount (getProject s pid) + v →
  ∃ e, contribute sender now v pid s = Revert e.
Proof.
  intros Hover. destruct (contribute sender now v pid s) as [s'|e] eqn:H.
  - apply contribute_accepted in H as [Hle _]. lia.
  - eauto.
Qed.

(** C1. From deployment on, whatever transactions are sent and whatever
    code sits at the recipients, the amount raised by a project is the sum of
    its logged contributions and never exceeds its goal; a contribution that
    would take the amount raised over the goal reverts, so the state (log,
    amount raised and per-contributor aggregate included) is exactly what it
    was; an accepted contribution is booked in full. *)
Theorem contributions_never_exceed_goal :
  (∀ code deployer txs pid,
     let s := replay code (constructor deployer) txs in
     contributed s pid = currentAmount (getProject s pid)
     ∧ currentAmount (getProject s pid) ≤ goalAmount (getProject s pid))
  ∧ (∀ code depth now sender pid v s,
       goalAmount (getProject s pid) < currentAmount (getProject s pid) + v →
       (∃ e, exec code depth now sender (ActContribute pid v) s = Revert e)
       ∧ transact code s (mkTx sender now depth (ActContribute pid v)) = s)
  ∧ (∀ code depth now sender pid v s ret s',
       exec code depth now sender (ActContribute pid v) s = Ok (ret, s') →
       currentAmount (getProject s' pid) = currentAmount (getProject s pid) + v
       ∧ getContribution s' pid sender = getContribution s pid sender + v
       ∧ getProjectContributions s' pid
         = getProjectContributions s pid ++ [mkContribution sender v now]).
Proof.
  split; [|split].
  - intros code deployer txs pid s.
    destruct (ledger_ok_replay code deployer txs) as [Hsum Hgoal _].
    split; [apply Hsum | apply Hgoal].
  - intros code depth now sender pid v s Hover.
    destruct (contribute_over_goal sender now v pid s Hover) as [e He].
    assert (Hx : exec code depth now sender (ActContribute pid v) s = Revert e).
    { rewrite exec_contribute, He. reflexivity. }
    split; [eauto|]. unfold transact. cbn [tx_depth tx_timestamp tx_sender tx_action].
    rewrite Hx. reflexivity.
  - intros code depth now sender pid v s ret s' H.
    rewrite exec_contribute in H. ok_inv.
    apply contribute_accepted in H. tauto.
Qed.

(** ** Terminal states *)

Lemma evolves_exec code depth now sender a s ret s' :
  exec code depth now sender a s = Ok (ret, s') → evolves s s'.
Proof.
  apply (exec_lift code evolves).
  - apply evolves_refl.
  - apply evolves_trans.
  - apply evolves_balance.
  - intros call sd nw act. apply evolves_dispatch.
Qed.

Lemma evolves_replay code txs s : evolves s (replay code s txs).
Proof.
  apply (replay_lift code evolves).
  - apply evolves_refl.
  - apply evolves_trans.
  - apply evolves_balance.
  - intros call sd nw act. apply evolves_dispatch.
Qed.

Lemma completeProject_Ok sender pid s s' :
  completeProject sender pid s = Ok s' →
  hasRole s DEFAULT_ADMIN_ROLE sender = true
  ∧ status (getProject s pid) = Active
  ∧ s' = emit (ProjectCompleted pid)
           (setProject pid (with_status Completed (getProject s pid)) s).
Proof.
  intros H. unfold completeProject in H. cbv zeta in H. ok_inv. bool_facts. auto.
Qed.

Lemma cancelProject_Ok sender pid s s' :
  cancelProject sender pid s = Ok s' →
  hasRole s DEFAULT_ADMIN_ROLE sender = true
  ∧ status (getProject s pid) = Active
  ∧ s' = emit (ProjectCancelled pid)
           (setProject pid (with_status Cancelled (getProject s pid)) s).
Proof.
  intros H. unfold cancelProject in H. cbv zeta in H. ok_inv. bool_facts. auto.
Qed.

(** Finality for created projects.  [completeProject] and [cancelProject]
    succeed only on an Active project, which they leave Completed,
    respectively Cancelled; and once a project that has been created (an id
    below the project counter) is Completed or Cancelled, no sequence of
    transactions, whatever the recipients' code does, changes its status. *)
Theorem status_transitions_are_final :
  (∀ sender pid s s',
     completeProject sender pid s = Ok s' →
     status (getProject s pid) = Active ∧ status (getProject s' pid) = Completed)
  ∧ (∀ sender pid s s',
       cancelProject sender pid s = Ok s' →
       status (getProject s pid) = Active ∧ status (getProject s' pid) = Cancelled)
  ∧ (∀ code txs s pid,
       pid < projectCount s →
       status (getProject s pid) ≠ Active →
       status (getProject (replay code s txs) pid) = status (getProject s pid))
  ∧ (∀ code txs1 txs2 s pid,
       pid < projectCount s →
       let s1 := replay code s txs1 in
       let s2 := replay code s1 txs2 in
       ¬ (status (getProject s1 pid) = Completed
          ∧ status (getProject s2 pid) = Cancelled)
       ∧ ¬ (status (getProject s1 pid) = Cancelled
            ∧ status (getProject s2 pid) = Completed)).
Proof.
  assert (Hfinal : ∀ code txs s pid,
       pid < projectCount s →
       status (getProject s pid) ≠ Active →
       status (getProject (replay code s txs) pid) = status (getProject s pid)).
  { intros code txs s pid Hlt Hst.
    apply (ev_terminal _ _ (evolves_replay code txs s)); assumption. }
  split; [|split; [|split; [exact Hfinal|]]]; cycle 2.
  { intros code txs1 txs2 s pid Hlt s1 s2.
    pose proof (ev_count _ _ (evolves_replay code txs1 s)) as Hmono.
    assert (Hlt1 : pid < projectCount s1) by (unfold s1; lia).
    split; intros [H1 H2];
      assert (Hkeep : status (getProject s2 pid) = status (getProject s1 pid))
        by (apply Hfinal; [exact Hlt1 | rewrite H1; discriminate]);
      rewrite H1, H2 in Hkeep; discriminate Hkeep. }
  - intros sender pid s s' H. apply completeProject_Ok in H as (_ & Hact & ->).
    split; [exact Hact|]. storage. rewrite lookup_insert_eq. reflexivity.
  - intros sender pid s s' H. apply cancelProject_Ok in H as (_ & Hact & ->).
    split; [exact Hact|]. storage. rewrite lookup_insert_eq. reflexivity.
Qed.

(** The restriction to ids below the project counter matters: the two
    transitions do not check that the project exists, so the blank slot of a
    project still to be created can be cancelled, and creation then makes
    it Active. *)
Remark blank_slot_is_not_a_project :
  let s1 := transact plain (constructor 1) (mkTx 1 1000 1 (ActCancelProject 0)) in
  let s2 := transact plain s1 (mkTx 1 1000 1 (ActCreateProject "t" "d" 100 10)) in
  projectCount s1 = 0
  ∧ status (getProject s1 0) = Cancelled
  ∧ status (getProject s2 0) = Active.
Proof. vm_compute. auto. Qed.

(** ** Project creation *)

Lemma createProject_Ok sender now t d g n s s' :
  createProject sender now t d g n s = Ok s' ↔
  _paused s = false
  ∧ hasRole s PROJECT_CREATOR_ROLE sender = true
  ∧ 0 < g
  ∧ MINIMUM_FUNDING_PERIOD ≤ n * days ≤ MAXIMUM_FUNDING_PERIOD
  ∧ projectCount s + 1 ≤ uint256_max
  ∧ now + n * days ≤ uint256_max
  ∧ s' = emit (ProjectCreated (projectCount s) t sender g (now + n * days))
           (setProject (projectCount s)
              (mkProject t d sender g
                 (currentAmount (getProject s (projectCount s)))
                 (now + n * days) Active
                 (fundsReleased (getProject s (projectCount s)))
                 (totalExpenses (getProject s (projectCount s))) now)
              (set_projectCount (projectCount s + 1) s)).
Proof.
  assert (Hd : n * (1 * days) = n * days) by lia.
  split.
  - intros H. unfold createProject in H. cbv zeta in H. ok_inv. bool_facts.
    rewrite !Hd in *. repeat split; auto; lia.
  - intros (Hp & Hr & Hg & [Hmin Hmax] & Hc & Ht & ->).
    assert (Hu : n * days ≤ uint256_max).
    { unfold MAXIMUM_FUNDING_PERIOD, uint256_max, days in *. lia. }
    unfold createProject, whenNotPaused, onlyRole, checked_mul, checked_add, require.
    rewrite !Hd.
    repeat first
      [ rewrite Hp | rewrite Hr
      | rewrite (proj2 (N.ltb_lt 0 g) Hg)
      | rewrite (proj2 (N.leb_le _ _) Hu)
      | rewrite (proj2 (N.leb_le _ _) Hmin)
      | rewrite (proj2 (N.leb_le _ _) Hmax)
      | rewrite (proj2 (N.leb_le _ _) Hc)
      | rewrite (proj2 (N.leb_le _ _) Ht)
      | progress cbn [mbind Result_bind] ].
    reflexivity.
Qed.

(** C8. For a caller holding the creator role, with the system not paused
    (and the counter and the clock far from the end of their range),
    [createProject] succeeds exactly when the goal is positive and the
    duration in days, taken in seconds, lies between 1 and 90 days (that
    is, the number of days lies between 1 and 90).  On
    success the project is stored under the current value of the project
    counter, which is then incremented and never decreases afterwards (ids
    grow strictly and are not reused); the project is Active, its deadline
    is the current time plus the duration and its creator is the caller. *)
Theorem createProject_succeeds_iff sender now t d g n s :
  _paused s = false →
  hasRole s PROJECT_CREATOR_ROLE sender = true →
  projectCount s < uint256_max →
  now + MAXIMUM_FUNDING_PERIOD ≤ uint256_max →
  ((∃ s', createProject sender now t d g n s = Ok s')
   ↔ 0 < g ∧ MINIMUM_FUNDING_PERIOD ≤ n * days ≤ MAXIMUM_FUNDING_PERIOD)
  ∧ ((∃ s', createProject sender now t d g n s = Ok s') ↔ 0 < g ∧ 1 ≤ n ≤ 90)
  ∧ (∀ s', createProject sender now t d g n s = Ok s' →
       let id := projectCount s in
       projectCount s' = id + 1
       ∧ status (getProject s' id) = Active
       ∧ deadline (getProject s' id) = now + n * days
       ∧ creator (getProject s' id) = sender
       ∧ goalAmount (getProject s' id) = g
       ∧ title (getProject s' id) = t
       ∧ description (getProject s' id) = d
       ∧ createdAt (getProject s' id) = now
       ∧ (∀ pid, pid ≠ id → getProject s' pid = getProject s pid)
       ∧ events s' = events s ++ [ProjectCreated id t sender g (now + n * days)]
       ∧ (∀ code txs, id < projectCount (replay code s' txs))).
Proof.
  intros Hp Hr Hc Ht.
  assert (Hiff : (∃ s', createProject sender now t d g n s = Ok s')
     ↔ 0 < g ∧ MINIMUM_FUNDING_PERIOD ≤ n * days ≤ MAXIMUM_FUNDING_PERIOD).
  { split.
    - intros [s' H]. apply createProject_Ok in H. tauto.
    - intros [Hg Hn]. eexists. apply createProject_Ok.
      repeat split; try tauto; lia. }
  split; [exact Hiff|split].
  - rewrite Hiff. unfold MINIMUM_FUNDING_PERIOD, MAXIMUM_FUNDING_PERIOD, days. lia.
  - intros s' H id. apply createProject_Ok in H as (_ & _ & _ & _ & _ & _ & ->).
    storage. rewrite lookup_insert_eq. storage.
    repeat split; try reflexivity.
    + intros pid Hne. rewrite lookup_insert_ne by done. reflexivity.
    + intros code txs.
      match goal with |- _ < projectCount (replay _ ?st _) =>
        pose proof (ev_count _ _ (evolves_replay code txs st)) as Hmono end.
      storage. unfold id. lia.
Qed.

(** ** Return data *)

Lemma exec_createProject code depth now sender t d g n s :
  exec code depth now sender (ActCreateProject t d g n) s
  = returnsNothing (createProject sender now t d g n s).
Proof. destruct depth; reflexivity. Qed.

Lemma exec_submitExpense code depth now sender pid d amt c u s :
  exec code depth now sender (ActSubmitExpense pid d amt c u) s
  = returnsNothing (submitExpense sender now pid d amt c u s).
Proof. destruct depth; reflexivity. Qed.

(** C9, as stated, fails: the first project created after deployment gets
    id 0, and the call that creates it returns no data at all. *)
Lemma createProject_returns_no_id :
  ¬ (∀ ret s',
       exec plain 1 1000 1 (ActCreateProject "t" "d" 100 10) (constructor 1)
       = Ok (ret, s') →
       ret = [projectCount (constructor 1)]).
Proof.
  intros H.
  destruct (exec plain 1 1000 1 (ActCreateProject "t" "d" 100 10) (constructor 1))
    as [[ret s']|e] eqn:E.
  - specialize (H ret s' eq_refl). subst ret. vm_compute in E. discriminate.
  - vm_compute in E. discriminate.
Qed.

(** C9, amended. A successful [createProject] or [submitExpense] returns no
    data; the new project id (the value of the project counter before the
    call) travels in the [ProjectCreated] event, and the index of the
    appended expense (the length of the list before the call) in the
    [ExpenseSubmitted] event, each the last event of the log. *)
Theorem ids_are_reported_by_events :
  (∀ code depth now sender t d g n s ret s',
     exec code depth now sender (ActCreateProject t d g n) s = Ok (ret, s') →
     ret = []
     ∧ events s'
       = events s ++ [ProjectCreated (projectCount s) t sender g (now + n * days)]
     ∧ creator (getProject s' (projectCount s)) = sender
     ∧ projectCount s' = projectCount s + 1)
  ∧ (∀ code depth now sender pid d amt c u s ret s',
       exec code depth now sender (ActSubmitExpense pid d amt c u) s = Ok (ret, s') →
       let index := length (getProjectExpenses s pid) in
       ret = []
       ∧ events s' = events s ++ [ExpenseSubmitted pid (N.of_nat index) d amt]
       ∧ getProjectExpenses s' pid !! index = Some (mkExpense d amt c now false u)
       ∧ length (getProjectExpenses s' pid) = S index).
Proof.
  split.
  - intros code depth now sender t d g n s ret s' H.
    rewrite exec_createProject in H. ok_inv.
    apply createProject_Ok in H as (_ & _ & _ & _ & _ & _ & ->).
    storage. rewrite lookup_insert_eq. auto.
  - intros code depth now sender pid d amt c u s ret s' H index.
    rewrite exec_submitExpense in H. ok_inv.
    unfold submitExpense in H. cbv zeta in H. ok_inv. storage.
    rewrite !lookup_insert_eq. storage.
    rewrite length_app, lookup_app_r by lia. cbn [length].
    replace (index - length (default [] (projectExpenses s !! pid)))%nat with 0%nat
      by (unfold index, getProjectExpenses; lia).
    repeat split; try reflexivity.
    + do 3 f_equal. unfold index, getProjectExpenses. lia.
    + unfold index, getProjectExpenses. lia.
Qed.

(** ** The two transfers, step by step *)

Lemma exec_unfold code depth now sender a s :
  exec code depth now sender a s
  = dispatch (transfer code depth now) sender now a s.
Proof. destruct depth; reflexivity. Qed.

Lemma approveExpense_run call sender pid i s e :
  hasRole s DEFAULT_ADMIN_ROLE sender = true →
  status (getProject s pid) ≠ Cancelled →
  getProjectExpenses s pid !! N.to_nat i = Some e →
  approved e = false →
  totalExpenses (getProject s pid) + amount e ≤ uint256_max →
  approveExpense call sender pid i s
  = match call (creator (getProject s pid)) (amount e) (approvalStaged pid i e s) with
    | None => Revert TransferFailed
    | Some s2 => Ok (approvalDone pid i s2)
    end.
Proof.
  intros Hr Hst He Ha Ho.
  unfold approveExpense, onlyRole, require, checked_add.
  rewrite Hr, He, Ha, (bool_decide_eq_false_2 _ Hst).
  cbn [mbind Result_bind negb].
  storage. rewrite (proj2 (N.leb_le _ _) Ho).
  cbn [mbind Result_bind]. rewrite lookup_insert_eq. storage.
  reflexivity.
Qed.

Lemma claimRefund_run call sender pid s :
  _status s = false →
  status (getProject s pid) = Cancelled →
  0 < getContribution s pid sender →
  getRefundClaimed s pid sender = false →
  claimRefund call sender pid s
  = match call sender (getContribution s pid sender) (refundStaged pid sender s) with
    | None => Revert TransferFailed
    | Some s2 => Ok (refundDone pid sender (getContribution s pid sender) s2)
    end.
Proof.
  intros Hl Hst Hc Hf.
  unfold claimRefund, nonReentrant, require. rewrite Hl.
  storage. rewrite Hst, Hf, (proj2 (N.ltb_lt _ _) Hc).
  rewrite bool_decide_eq_true_2 by reflexivity.
  cbn [mbind Result_bind negb].
  unfold refundStaged, refundDone.
  destruct (call sender _ _); reflexivity.
Qed.

Lemma claimRefund_Ok call sender pid s s' :
  claimRefund call sender pid s = Ok s' →
  _status s = false
  ∧ status (getProject s pid) = Cancelled
  ∧ 0 < getContribution s pid sender
  ∧ getRefundClaimed s pid sender = false.
Proof.
  intros H. unfold claimRefund in H. cbv zeta in H. ok_inv. storage. bool_facts.
  auto.
Qed.

Lemma approvalStaged_facts pid i e s :
  getProjectExpenses s pid !! N.to_nat i = Some e →
  getProjectExpenses (approvalStaged pid i e s) pid !! N.to_nat i
  = Some (with_approved true e)
  ∧ totalExpenses (getProject (approvalStaged pid i e s) pid)
    = totalExpenses (getProject s pid) + amount e.
Proof.
  intros He. unfold approvalStaged. storage. rewrite !lookup_insert_eq. storage.
  split; [|reflexivity].
  apply list_lookup_insert_eq. eapply lookup_lt_Some, He.
Qed.

Lemma refundStaged_facts pid a s :
  getRefundClaimed (refundStaged pid a s) pid a = true
  ∧ _status (refundStaged pid a s) = true.
Proof.
  unfold refundStaged. storage. rewrite lookup_insert_eq. auto.
Qed.

(** ** The pause switch *)

(** C7. While the system is paused, [createProject], [contribute] and
    [submitExpense] revert with SystemPaused and the transaction changes
    nothing; [completeProject], [cancelProject], [approveExpense] and
    [claimRefund] do not look at the pause flag: each succeeds as soon as
    its own preconditions hold (for the last two, the transfer included). *)
Theorem pause_gates_exactly_three_entry_points s :
  _paused s = true →
  (∀ code depth now sender t d g n,
     exec code depth now sender (ActCreateProject t d g n) s = Revert SystemPaused
     ∧ transact code s (mkTx sender now depth (ActCreateProject t d g n)) = s)
  ∧ (∀ code depth now sender pid v,
       exec code depth now sender (ActContribute pid v) s = Revert SystemPaused
       ∧ transact code s (mkTx sender now depth (ActContribute pid v)) = s)
  ∧ (∀ code depth now sender pid d amt c u,
       exec code depth now sender (ActSubmitExpense pid d amt c u) s
       = Revert SystemPaused
       ∧ transact code s (mkTx sender now depth (ActSubmitExpense pid d amt c u)) = s)
  ∧ (∀ sender pid,
       hasRole s DEFAULT_ADMIN_ROLE sender = true →
       status (getProject s pid) = Active →
       completeProject sender pid s
       = Ok (emit (ProjectCompleted pid)
               (setProject pid (with_status Completed (getProject s pid)) s)))
  ∧ (∀ sender pid,
       hasRole s DEFAULT_ADMIN_ROLE sender = true →
       status (getProject s pid) = Active →
       cancelProject sender pid s
       = Ok (emit (ProjectCancelled pid)
               (setProject pid (with_status Cancelled (getProject s pid)) s)))
  ∧ (∀ call sender pid i e s2,
       hasRole s DEFAULT_ADMIN_ROLE sender = true →
       status (getProject s pid) ≠ Cancelled →
       getProjectExpenses s pid !! N.to_nat i = Some e →
       approved e = false →
       totalExpenses (getProject s pid) + amount e ≤ uint256_max →
       call (creator (getProject s pid)) (amount e) (approvalStaged pid i e s)
       = Some s2 →
       approveExpense call sender pid i s = Ok (approvalDone pid i s2))
  ∧ (∀ call sender pid s2,
       _status s = false →
       status (getProject s pid) = Cancelled →
       0 < getContribution s pid sender →
       getRefundClaimed s pid sender = false →
       call sender (getContribution s pid sender) (refundStaged pid sender s)
       = Some s2 →
       claimRefund call sender pid s
       = Ok (refundDone pid sender (getContribution s pid sender) s2)).
Proof.
  intros Hp.
  assert (Htx : ∀ code depth now sender a,
            exec code depth now sender a s = Revert SystemPaused →
            transact code s (mkTx sender now depth a) = s).
  { intros code depth now sender a H. unfold transact.
    cbn [tx_depth tx_timestamp tx_sender tx_action]. rewrite H. reflexivity. }
  repeat apply conj.
  - intros code depth now sender t d g n.
    assert (H : exec code depth now sender (ActCreateProject t d g n) s
                = Revert SystemPaused).
    { rewrite exec_createProject. unfold createProject, whenNotPaused.
      rewrite Hp. reflexivity. }
    auto.
  - intros code depth now sender pid v.
    assert (H : exec code depth now sender (ActContribute pid v) s
                = Revert SystemPaused).
    { rewrite exec_contribute. unfold contribute, whenNotPaused.
      storage. rewrite Hp. reflexivity. }
    auto.
  - intros code depth now sender pid d amt c u.
    assert (H : exec code depth now sender (ActSubmitExpense pid d amt c u) s
                = Revert SystemPaused).
    { rewrite exec_submitExpense. unfold submitExpense, whenNotPaused.
      rewrite Hp. reflexivity. }
    auto.
  - intros sender pid Hr Hst. unfold completeProject, onlyRole, require.
    rewrite Hr, Hst. rewrite bool_decide_eq_true_2 by reflexivity. reflexivity.
  - intros sender pid Hr Hst. unfold cancelProject, onlyRole, require.
    rewrite Hr, Hst. rewrite bool_decide_eq_true_2 by reflexivity. reflexivity.
  - intros call sender pid i e s2 Hr Hst He Ha Ho Hc.
    rewrite (approveExpense_run call sender pid i s e); auto.
    rewrite Hc. reflexivity.
  - intros call sender pid s2 Hl Hst Hc Hf Hcall.
    rewrite claimRefund_run; auto. rewrite Hcall. reflexivity.
Qed.

(** ** Failure atomicity and the order of writes and transfers *)

Lemma transfer_fails code depth now to v s :
  balance s < v ∨ depth = 0%nat ∨ code to = Reject →
  transfer code depth now to v s = None.
Proof.
  intros H. unfold transfer, send.
  destruct (N.ltb_spec (balance s) v) as [|Hge]; [reflexivity|].
  destruct H as [H|[->|H]]; [lia|reflexivity|].
  destruct depth; [reflexivity|]. rewrite H. reflexivity.
Qed.

Lemma transact_reverted code s tx e :
  exec code (tx_depth tx) (tx_timestamp tx) (tx_sender tx) (tx_action tx) s
  = Revert e →
  transact code s tx = s.
Proof. intros H. unfold transact. rewrite H. reflexivity. Qed.

Lemma approveExpense_again call sender pid i s e :
  getProjectExpenses s pid !! N.to_nat i = Some e →
  approved e = true →
  ∃ err, approveExpense call sender pid i s = Revert err.
Proof.
  intros He Ha. unfold approveExpense, onlyRole, require.
  destruct (hasRole s DEFAULT_ADMIN_ROLE sender); [|eauto].
  destruct (negb (bool_decide _)); cbn [mbind Result_bind]; [|eauto].
  rewrite He, Ha. cbn [mbind Result_bind negb]. eauto.
Qed.

(** C6. A call that fails leaves the state exactly as it was.  In
    [approveExpense] the approval flag and the approved total, and in
    [claimRefund] the claimed flag, are already written in the state the
    outbound transfer is issued from (so a call back for the same expense,
    or the same refund, is refused); and when the transfer fails (balance
    too small, call stack exhausted or recipient refusing) the call reverts
    with TransferFailed and none of these writes remains. *)
Theorem failed_calls_change_nothing :
  (∀ code s tx e,
     exec code (tx_depth tx) (tx_timestamp tx) (tx_sender tx) (tx_action tx) s
     = Revert e →
     transact code s tx = s)
  ∧ (∀ call sender pid i s e,
       hasRole s DEFAULT_ADMIN_ROLE sender = true →
       status (getProject s pid) ≠ Cancelled →
       getProjectExpenses s pid !! N.to_nat i = Some e →
       approved e = false →
       totalExpenses (getProject s pid) + amount e ≤ uint256_max →
       let staged := approvalStaged pid i e s in
       approveExpense call sender pid i s
       = match call (creator (getProject s pid)) (amount e) staged with
         | None => Revert TransferFailed
         | Some s2 => Ok (approvalDone pid i s2)
         end
       ∧ getProjectExpenses staged pid !! N.to_nat i = Some (with_approved true e)
       ∧ totalExpenses (getProject staged pid)
         = totalExpenses (getProject s pid) + amount e
       ∧ (∀ call' sender' b,
            ∃ err, approveExpense call' sender' pid i (set_balance b staged)
                   = Revert err))
  ∧ (∀ call sender pid s,
       _status s = false →
       status (getProject s pid) = Cancelled →
       0 < getContribution s pid sender →
       getRefundClaimed s pid sender = false →
       let staged := refundStaged pid sender s in
       claimRefund call sender pid s
       = match call sender (getContribution s pid sender) staged with
         | None => Revert TransferFailed
         | Some s2 => Ok (refundDone pid sender (getContribution s pid sender) s2)
         end
       ∧ getRefundClaimed staged pid sender = true
       ∧ (∀ call' b,
            claimRefund call' sender pid (set_balance b staged)
            = Revert ReentrancyDetected))
  ∧ (∀ code depth now sender pid i s e,
       hasRole s DEFAULT_ADMIN_ROLE sender = true →
       status (getProject s pid) ≠ Cancelled →
       getProjectExpenses s pid !! N.to_nat i = Some e →
       approved e = false →
       totalExpenses (getProject s pid) + amount e ≤ uint256_max →
       balance s < amount e ∨ depth = 0%nat
         ∨ code (creator (getProject s pid)) = Reject →
       exec code depth now sender (ActApproveExpense pid i) s = Revert TransferFailed
       ∧ transact code s (mkTx sender now depth (ActApproveExpense pid i)) = s)
  ∧ (∀ code depth now sender pid s,
       _status s = false →
       status (getProject s pid) = Cancelled →
       0 < getContribution s pid sender →
       getRefundClaimed s pid sender = false →
       balance s < getContribution s pid sender ∨ depth = 0%nat
         ∨ code sender = Reject →
       exec code depth now sender (ActClaimRefund pid) s = Revert TransferFailed
       ∧ transact code s (mkTx sender now depth (ActClaimRefund pid)) = s).
Proof.
  repeat apply conj.
  - apply transact_reverted.
  - intros call sender pid i s e Hr Hst He Ha Ho staged.
    destruct (approvalStaged_facts pid i e s He) as [Hflag Htot].
    split; [apply approveExpense_run; auto|].
    split; [exact Hflag|]. split; [exact Htot|].
    intros call' sender' b.
    apply (approveExpense_again call' sender' pid i _ (with_approved true e)).
    + exact Hflag.
    + reflexivity.
  - intros call sender pid s Hl Hst Hc Hf staged.
    destruct (refundStaged_facts pid sender s) as [Hflag Hlock].
    split; [apply claimRefund_run; auto|]. split; [exact Hflag|].
    intros call' b. unfold claimRefund, nonReentrant.
    replace (_status (set_balance b staged)) with true by (symmetry; exact Hlock).
    reflexivity.
  - intros code depth now sender pid i s e Hr Hst He Ha Ho Hfail.
    assert (H : exec code depth now sender (ActApproveExpense pid i) s
                = Revert TransferFailed).
    { rewrite exec_unfold. cbn [dispatch].
      rewrite (approveExpense_run _ sender pid i s e); auto.
      rewrite transfer_fails; [reflexivity|]. exact Hfail. }
    split; [exact H|]. eapply transact_reverted. exact H.
  - intros code depth now sender pid s Hl Hst Hc Hf Hfail.
    assert (H : exec code depth now sender (ActClaimRefund pid) s
                = Revert TransferFailed).
    { rewrite exec_unfold. cbn [dispatch].
      rewrite claimRefund_run; auto.
      rewrite transfer_fails; [reflexivity|]. exact Hfail. }
    split; [exact H|]. eapply transact_reverted. exact H.
Qed.

(** ** Refunds *)

Lemma evolves_transfer code depth now to v s s' :
  transfer code depth now to v s = Some s' → evolves s s'.
Proof.
  apply (transfer_lift code evolves).
  - apply evolves_refl.
  - apply evolves_trans.
  - apply evolves_balance.
  - intros call sd nw act. apply evolves_dispatch.
Qed.

Lemma claimRefund_inv call sender pid s s' :
  claimRefund call sender pid s = Ok s' →
  _status s = false
  ∧ status (getProject s pid) = Cancelled
  ∧ 0 < getContribution s pid sender
  ∧ getRefundClaimed s pid sender = false
  ∧ ∃ s2, call sender (getContribution s pid sender) (refundStaged pid sender s)
          = Some s2
          ∧ s' = refundDone pid sender (getContribution s pid sender) s2.
Proof.
  intros H. destruct (claimRefund_Ok _ _ _ _ _ H) as (Hl & Hst & Hc & Hf).
  rewrite claimRefund_run in H by assumption.
  destruct (call sender _ _) as [s2|]; [|discriminate].
  injection H as <-. eauto 10.
Qed.

Lemma claimRefund_repeat call sender pid s :
  _status s = false →
  status (getProject s pid) = Cancelled →
  0 < getContribution s pid sender →
  getRefundClaimed s pid sender = true →
  claimRefund call sender pid s = Revert AlreadyClaimed.
Proof.
  intros Hl Hst Hc Hf. unfold claimRefund, nonReentrant, require. rewrite Hl.
  storage. rewrite Hst, Hf, (proj2 (N.ltb_lt _ _) Hc).
  rewrite bool_decide_eq_true_2 by reflexivity. reflexivity.
Qed.

(** C5. [claimRefund] succeeds only on a Cancelled project, for a caller
    with a nonzero recorded contribution who has not claimed yet; the claim
    is recorded before the transfer, and the transfer is issued to the
    caller for exactly the recorded cumulative contribution (a plain account
    receives it: the balance drops by exactly that amount).  After a
    successful claim on a project, the claim stays recorded and every later
    claim by the same caller on the same project, whatever happened in
    between, reverts with AlreadyClaimed. *)
Theorem refund_is_claimed_once :
  (∀ call sender pid s s',
     claimRefund call sender pid s = Ok s' →
     status (getProject s pid) = Cancelled
     ∧ 0 < getContribution s pid sender
     ∧ getRefundClaimed s pid sender = false
     ∧ getRefundClaimed (refundStaged pid sender s) pid sender = true
     ∧ ∃ s2, call sender (getContribution s pid sender) (refundStaged pid sender s)
             = Some s2
             ∧ s' = refundDone pid sender (getContribution s pid sender) s2)
  ∧ (∀ code depth now sender pid s,
       code sender = Accept →
       _status s = false →
       status (getProject s pid) = Cancelled →
       0 < getContribution s pid sender →
       getRefundClaimed s pid sender = false →
       getContribution s pid sender ≤ balance s →
       ∃ s', exec code (S depth) now sender (ActClaimRefund pid) s = Ok ([], s')
             ∧ balance s' = balance s - getContribution s pid sender
             ∧ getRefundClaimed s' pid sender = true
             ∧ events s'
               = events s ++ [RefundClaimed pid sender (getContribution s pid sender)])
  ∧ (∀ code depth now sender pid s ret s',
       pid < projectCount s →
       exec code depth now sender (ActClaimRefund pid) s = Ok (ret, s') →
       ∀ txs depth' now',
         getRefundClaimed (replay code s' txs) pid sender = true
         ∧ exec code depth' now' sender (ActClaimRefund pid) (replay code s' txs)
           = Revert AlreadyClaimed).
Proof.
  repeat apply conj.
  - intros call sender pid s s' H.
    apply claimRefund_inv in H as (_ & Hst & Hc & Hf & Hex).
    destruct (refundStaged_facts pid sender s) as [Hflag _]. auto 10.
  - intros code depth now sender pid s Hcode Hl Hst Hc Hf Hbal.
    eexists. rewrite exec_unfold. cbn [dispatch].
    rewrite claimRefund_run by assumption.
    unfold transfer, send.
    replace (balance (refundStaged pid sender s)) with (balance s) by reflexivity.
    rewrite (proj2 (N.ltb_ge _ _) Hbal), Hcode. cbn [runScript returnsNothing mbind Result_bind].
    split; [reflexivity|].
    unfold refundDone, refundStaged. storage. rewrite lookup_insert_eq. auto.
  - intros code depth now sender pid s ret s' Hlt H txs depth' now'.
    pose proof (evolves_exec _ _ _ _ _ _ _ _ H) as Hev.
    rewrite exec_unfold in H. cbn [dispatch] in H. ok_inv.
    apply claimRefund_inv in H as (Hl & Hst & Hc & Hf & s2 & Hcall & ->).
    apply evolves_transfer in Hcall.
    destruct (refundStaged_facts pid sender s) as [Hflag _].
    apply (ev_claimed _ _ Hcall) in Hflag.
    set (s' := refundDone pid sender (getContribution s pid sender) s2) in *.
    assert (Hflag' : getRefundClaimed s' pid sender = true) by exact Hflag.
    pose proof (evolves_replay code txs s') as Hev'.
    pose proof (evolves_trans _ _ _ Hev Hev') as Hall.
    split; [apply (ev_claimed _ _ Hev'); exact Hflag'|].
    rewrite exec_unfold. cbn [dispatch].
    destruct (ev_cancelled _ _ Hall pid Hlt Hst) as (_ & _ & _ & Hsame).
    rewrite claimRefund_repeat; [reflexivity| | | |].
    + rewrite (ev_lock _ _ Hall). exact Hl.
    + rewrite (ev_terminal _ _ Hall pid Hlt); [exact Hst|congruence].
    + rewrite Hsame. exact Hc.
    + apply (ev_claimed _ _ Hev'). exact Hflag'.
Qed.

(** ** Approvals against pending expenses; calls back during a payout *)

(** C2 fails on the code.  Both expenses pass the submission check
    (80 ≥ 0 + 50) while neither is approved; the admin approves the first,
    then the second, and both calls succeed: the approved total of the
    project ends at 100 ether against 80 ether raised, the second payout
    being covered by the ether of the other project. *)
Theorem pending_expenses_overdraw :
  let s := replay plain deployed overdraw_setup in
  (approved <$> getProjectExpenses s 0) = [false; false]
  ∧ totalExpenses (getProject s 0) = 0
  ∧ currentAmount (getProject s 0) = 80 * ether
  ∧ ∃ s1 s2,
      exec plain 1 1003 1 (ActApproveExpense 0 0) s = Ok ([], s1)
      ∧ exec plain 1 1003 1 (ActApproveExpense 0 1) s1 = Ok ([], s2)
      ∧ s2 = replay plain s overdraw_approvals
      ∧ currentAmount (getProject s2 0) = 80 * ether
      ∧ totalExpenses (getProject s2 0) = 100 * ether
      ∧ ¬ totalExpenses (getProject s2 0) ≤ currentAmount (getProject s2 0)
      ∧ balance s2 = 60 * ether.
Proof.
  cbv zeta. split; [vm_compute; reflexivity|].
  split; [vm_compute; reflexivity|].
  split; [vm_compute; reflexivity|].
  eexists. eexists.
  split; [vm_compute; reflexivity|].
  split; [vm_compute; reflexivity|].
  split; [vm_compute; reflexivity|].
  split; [vm_compute; reflexivity|].
  split; [vm_compute; reflexivity|].
  split; [vm_compute; intros H; apply H; reflexivity|].
  vm_compute; reflexivity.
Qed.

(** The guard, where it is applied, does refuse nested entry. *)
Lemma guarded_entry_points_refuse_nested_entry call sender now v pid s :
  _status s = true →
  claimRefund call sender pid s = Revert ReentrancyDetected
  ∧ (_paused s = false →
     contribute sender now v pid s = Revert ReentrancyDetected).
Proof.
  intros Hl. split.
  - unfold claimRefund, nonReentrant. rewrite Hl. reflexivity.
  - intros Hp. unfold contribute, whenNotPaused, nonReentrant. storage.
    rewrite Hp, Hl. reflexivity.
Qed.

(** C3 fails on the code: [approveExpense] carries no guard.  While it pays
    the creator (account 1, a contract), a nested [contribute] from the
    creator goes through, and so does a nested [approveExpense] of another
    pending expense: the log shows the nested call completing before the
    outer one. *)
Theorem approveExpense_is_not_guarded :
  (∃ s',
     exec (reentering (ActContribute 0 (ether / 100))) 1 2000 1
       (ActApproveExpense 0 0) pending = Ok ([], s')
     ∧ events s'
       = events pending
         ++ [ContributionMade 0 1 (ether / 100);
             ExpenseApproved 0 0;
             FundsReleased 0 (50 * ether)])
  ∧ (∃ s',
       exec (reentering (ActApproveExpense 0 1)) 2 2000 1
         (ActApproveExpense 0 0) two_pending = Ok ([], s')
       ∧ events s'
         = events two_pending
           ++ [ExpenseApproved 0 1;
               FundsReleased 0 (30 * ether);
               ExpenseApproved 0 0;
               FundsReleased 0 (30 * ether)]).
Proof.
  split; eexists; (split; [vm_compute; reflexivity|vm_compute; reflexivity]).
Qed.

(** ** The theorems at work on the scenarios *)

Lemma contributions_never_exceed_goal_witness :
  goalAmount (getProject funded 0) < currentAmount (getProject funded 0) + 30 * ether
  ∧ (∃ e, exec plain 1 1003 2 (ActContribute 0 (30 * ether)) funded = Revert e)
  ∧ transact plain funded (mkTx 2 1003 1 (ActContribute 0 (30 * ether))) = funded.
Proof.
  assert (H : goalAmount (getProject funded 0)
              < currentAmount (getProject funded 0) + 30 * ether)
    by (vm_compute; reflexivity).
  split; [exact H|].
  exact (proj1 (proj2 contributions_never_exceed_goal)
           plain 1%nat 1003 2 0 (30 * ether) funded H).
Defined.

Lemma status_transitions_are_final_witness :
  (status (getProject funded 0) = Active
   ∧ status (getProject cancelled 0) = Cancelled)
  ∧ status (getProject
              (replay plain cancelled
                 [mkTx 1 1004 1 (ActCompleteProject 0);
                  mkTx 1 1005 1 (ActCreateProject "n" "d" ether 1)]) 0)
    = status (getProject cancelled 0).
Proof.
  destruct status_transitions_are_final as (_ & Hcancel & Hfinal & _).
  split.
  - apply (Hcancel 1 0 funded cancelled). vm_compute. reflexivity.
  - apply Hfinal.
    + vm_compute. reflexivity.
    + vm_compute. discriminate.
Defined.

Lemma refund_is_claimed_once_witness :
  (∃ s', exec plain 1 1004 2 (ActClaimRefund 0) cancelled = Ok ([], s')
         ∧ balance s' = balance cancelled - getContribution cancelled 0 2
         ∧ getRefundClaimed s' 0 2 = true
         ∧ events s'
           = events cancelled
             ++ [RefundClaimed 0 2 (getContribution cancelled 0 2)])
  ∧ exec plain 1 1006 2 (ActClaimRefund 0)
      (replay plain refunded [mkTx 1 1005 1 (ActCreateProject "n" "d" ether 1)])
    = Revert AlreadyClaimed.
Proof.
  destruct refund_is_claimed_once as (_ & Hpay & Hrepeat).
  split.
  - apply (Hpay plain 0%nat 1004 2 0 cancelled).
    + reflexivity.
    + vm_compute. reflexivity.
    + vm_compute. reflexivity.
    + vm_compute. reflexivity.
    + vm_compute. reflexivity.
    + vm_compute. discriminate.
  - apply (Hrepeat plain 1%nat 1004 2 0 cancelled [] refunded).
    + vm_compute. reflexivity.
    + vm_compute. reflexivity.
Defined.

Lemma failed_calls_change_nothing_witness :
  exec refusing 1 1005 1 (ActApproveExpense 0 0) pending = Revert TransferFailed
  ∧ transact refusing pending (mkTx 1 1005 1 (ActApproveExpense 0 0)) = pending.
Proof.
  destruct failed_calls_change_nothing as (_ & _ & _ & Hfail & _).
  apply (Hfail refusing 1%nat 1005 1 0 0 pending expense50).
  - vm_compute. reflexivity.
  - vm_compute. discriminate.
  - vm_compute. reflexivity.
  - reflexivity.
  - vm_compute. discriminate.
  - right. right. vm_compute. reflexivity.
Defined.

Lemma pause_gates_exactly_three_entry_points_witness :
  _paused paused_pending = true
  ∧ exec plain 1 1005 2 (ActContribute 0 ether) paused_pending = Revert SystemPaused
  ∧ approveExpense (transfer plain 1 1005) 1 0 0 paused_pending
    = Ok (approvalDone 0 0
            (set_balance (30 * ether) (approvalStaged 0 0 expense50 paused_pending))).
Proof.
  assert (Hp : _paused paused_pending = true) by (vm_compute; reflexivity).
  destruct (pause_gates_exactly_three_entry_points paused_pending Hp)
    as (_ & Hcontribute & _ & _ & _ & Happrove & _).
  split; [exact Hp|]. split.
  - apply (Hcontribute plain 1%nat 1005 2 0 ether).
  - apply (Happrove (transfer plain 1 1005) 1 0 0 expense50).
    + vm_compute. reflexivity.
    + vm_compute. discriminate.
    + vm_compute. reflexivity.
    + reflexivity.
    + vm_compute. discriminate.
    + vm_compute. reflexivity.
Defined.

Lemma createProject_succeeds_iff_witness :
  ∃ s', createProject 1 1000 "t" "d" (100 * ether) 10 deployed = Ok s'.
Proof.
  assert (Hp : _paused deployed = false) by (vm_compute; reflexivity).
  assert (Hr : hasRole deployed PROJECT_CREATOR_ROLE 1 = true)
    by (vm_compute; reflexivity).
  assert (Hc : projectCount deployed < uint256_max) by (vm_compute; reflexivity).
  assert (Ht : 1000 + MAXIMUM_FUNDING_PERIOD ≤ uint256_max)
    by (vm_compute; discriminate).
  apply (proj1 (createProject_succeeds_iff 1 1000 "t" "d" (100 * ether) 10
                  deployed Hp Hr Hc Ht)).
  split; [vm_compute; reflexivity|].
  split; vm_compute; discriminate.
Defined.

Lemma ids_are_reported_by_events_witness :
  events created
  = events deployed ++ [ProjectCreated 0 "t" 1 (100 * ether) (1000 + 10 * days)].
Proof.
  assert (H : exec plain 1 1000 1 (ActCreateProject "t" "d" (100 * ether) 10) deployed
              = Ok ([], created)) by (vm_compute; reflexivity).
  exact (proj1 (proj2 (proj1 ids_are_reported_by_events
                         plain 1%nat 1000 1 "t" "d" (100 * ether) 10
                         deployed [] created H))).
Defined.


(** ** The books only grow *)

Lemma expense_kept_refl e : expense_kept e e.
Proof. unfold expense_kept. auto 10. Qed.

Lemma expense_kept_trans e1 e2 e3 :
  expense_kept e1 e2 → expense_kept e2 e3 → expense_kept e1 e3.
Proof. unfold expense_kept. intuition congruence. Qed.

Lemma expense_kept_approve e : expense_kept e (with_approved true e).
Proof. unfold expense_kept. cbn. auto 10. Qed.

Lemma ledger_grows_refl s : ledger_grows s s.
Proof.
  split; intros; try reflexivity; try lia; eauto using expense_kept_refl.
  auto 10.
Qed.

Lemma ledger_grows_trans s1 s2 s3 :
  ledger_grows s1 s2 → ledger_grows s2 s3 → ledger_grows s1 s3.
Proof.
  intros [c1 x1 l1 a1 r1 t1 f1 m1] [c2 x2 l2 a2 r2 t2 f2 m2]. split.
  - lia.
  - intros pid i e He. destruct (x1 pid i e He) as (e' & He' & K1).
    destruct (x2 pid i e' He') as (e'' & He'' & K2).
    eauto using expense_kept_trans.
  - intros pid. etrans; [apply l1 | apply l2].
  - intros pid a. specialize (a1 pid a). specialize (a2 pid a). lia.
  - intros pid. specialize (r1 pid). specialize (r2 pid). lia.
  - intros pid. specialize (t1 pid). specialize (t2 pid). lia.
  - intros pid. rewrite f2. apply f1.
  - intros pid Hlt. specialize (m1 pid Hlt). specialize (m2 pid ltac:(lia)).
    intuition congruence.
Qed.

Lemma ledger_grows_balance b s : ledger_grows s (set_balance b s).
Proof.
  split; storage; intros; try reflexivity; try lia; eauto using expense_kept_refl.
  auto 10.
Qed.

Lemma lookup_approve_kept (l : list Expense) idx e i e0 :
  l !! idx = Some e →
  l !! i = Some e0 →
  ∃ e', <[idx := with_approved true e]> l !! i = Some e' ∧ expense_kept e0 e'.
Proof.
  intros He He0. destruct (decide (idx = i)) as [->|Hne].
  - rewrite list_lookup_insert_eq by (eapply lookup_lt_Some; eauto).
    replace e0 with e by congruence. eauto using expense_kept_approve.
  - rewrite list_lookup_insert_ne by done. eauto using expense_kept_refl.
Qed.

Ltac grow_tac :=
  storage; intros; map_cases; storage;
  try reflexivity; try lia; try done;
  try (apply prefix_app_r; reflexivity);
  try (eexists; split;
       [apply lookup_app_l_Some; eassumption | apply expense_kept_refl]);
  try (eapply lookup_approve_kept; eassumption);
  eauto 10 using expense_kept_refl, expense_kept_approve.

Lemma ledger_grows_dispatch (call : CallValue) sender now a s ret s' :
  (∀ to v s0 s1, call to v s0 = Some s1 → ledger_grows s0 s1) →
  dispatch call sender now a s = Ok (ret, s') → ledger_grows s s'.
Proof.
  intros Hcall H. destruct a; simpl in H.
  - unfold createProject in H. cbv zeta in H. ok_inv. split; grow_tac.
  - unfold contribute in H. cbv zeta in H. ok_inv. storage. bool_facts.
    split; grow_tac.
  - unfold submitExpense in H. cbv zeta in H. ok_inv. storage. bool_facts.
    split; grow_tac.
  - unfold approveExpense in H. cbv zeta in H. ok_inv.
    match goal with Hc : call _ _ ?st = Some ?s2 |- _ =>
      apply (ledger_grows_trans _ st);
        [|apply (ledger_grows_trans _ s2); [apply (Hcall _ _ _ _ Hc)|]] end.
    + storage. bool_facts. split; grow_tac.
    + split; grow_tac.
  - unfold completeProject in H. cbv zeta in H. ok_inv. storage. bool_facts.
    split; grow_tac.
  - unfold cancelProject in H. cbv zeta in H. ok_inv. storage. bool_facts.
    split; grow_tac.
  - unfold claimRefund in H. cbv zeta in H. ok_inv.
    match goal with Hc : call _ _ ?st = Some ?s2 |- _ =>
      apply (ledger_grows_trans _ st);
        [|apply (ledger_grows_trans _ s2); [apply (Hcall _ _ _ _ Hc)|]] end.
    + split; grow_tac.
    + split; grow_tac.
  - unfold pause in H. ok_inv. split; grow_tac.
  - unfold unpause in H. ok_inv. split; grow_tac.
  - unfold grantProjectCreatorRole, grantRole, _grantRole in H. ok_inv.
    destruct (hasRole s _ account); split; grow_tac.
  - unfold grantRole, _grantRole in H. ok_inv.
    destruct (hasRole s _ account); split; grow_tac.
  - unfold revokeRole, _revokeRole in H. ok_inv.
    destruct (hasRole s _ account); split; grow_tac.
  - discriminate.
Qed.

Lemma ledger_grows_exec code depth now sender a s ret s' :
  exec code depth now sender a s = Ok (ret, s') → ledger_grows s s'.
Proof.
  apply (exec_lift code ledger_grows).
  - apply ledger_grows_refl.
  - apply ledger_grows_trans.
  - apply ledger_grows_balance.
  - intros call sd nw act. apply ledger_grows_dispatch.
Qed.

Lemma ledger_grows_transfer code depth now to v s s' :
  transfer code depth now to v s = Some s' → ledger_grows s s'.
Proof.
  apply (transfer_lift code ledger_grows).
  - apply ledger_grows_refl.
  - apply ledger_grows_trans.
  - apply ledger_grows_balance.
  - intros call sd nw act. apply ledger_grows_dispatch.
Qed.

Lemma ledger_grows_replay code txs s : ledger_grows s (replay code s txs).
Proof.
  apply (replay_lift code ledger_grows).
  - apply ledger_grows_refl.
  - apply ledger_grows_trans.
  - apply ledger_grows_balance.
  - intros call sd nw act. apply ledger_grows_dispatch.
Qed.

(** X1. Whatever transactions are sent and whatever the recipients' code
    does, the contribution log of every project is only appended to, and
    neither the aggregate of a contributor, nor the amount raised, nor the
    approved total of a project ever decreases (a refund, in particular,
    takes nothing off the books). *)
Theorem books_only_grow code txs s pid a :
  let s' := replay code s txs in
  getProjectContributions s pid `prefix_of` getProjectContributions s' pid
  ∧ getContribution s pid a ≤ getContribution s' pid a
  ∧ currentAmount (getProject s pid) ≤ currentAmount (getProject s' pid)
  ∧ totalExpenses (getProject s pid) ≤ totalExpenses (getProject s' pid).
Proof.
  intros s'. destruct (ledger_grows_replay code txs s) as [_ _ Hl Ha Hr Ht _ _].
  auto.
Qed.

(** X2. An expense, once submitted, stays at its index for good: no
    transaction removes or reorders expenses or changes the description,
    amount, category, timestamp or proof of one, and an approval is never
    taken back. *)
Theorem expenses_are_append_only code txs s pid i e :
  getProjectExpenses s pid !! i = Some e →
  ∃ e', getProjectExpenses (replay code s txs) pid !! i = Some e'
        ∧ expense_kept e e'.
Proof. apply (lg_expenses _ _ (ledger_grows_replay code txs s)). Qed.

(** X3. The terms of a created project (title, description, creator, goal,
    deadline, creation time) never change afterwards. *)
Theorem project_terms_are_fixed code txs s pid :
  pid < projectCount s →
  let p := getProject s pid in
  let p' := getProject (replay code s txs) pid in
  title p' = title p
  ∧ description p' = description p
  ∧ creator p' = creator p
  ∧ goalAmount p' = goalAmount p
  ∧ deadline p' = deadline p
  ∧ createdAt p' = createdAt p.
Proof. intros Hlt. apply (lg_terms _ _ (ledger_grows_replay code txs s)), Hlt. Qed.

Lemma approveExpense_inv call sender pid i s s' :
  approveExpense call sender pid i s = Ok s' →
  ∃ e s2,
    hasRole s DEFAULT_ADMIN_ROLE sender = true
    ∧ status (getProject s pid) ≠ Cancelled
    ∧ getProjectExpenses s pid !! N.to_nat i = Some e
    ∧ approved e = false
    ∧ totalExpenses (getProject s pid) + amount e ≤ uint256_max
    ∧ call (creator (getProject s pid)) (amount e) (approvalStaged pid i e s) = Some s2
    ∧ s' = approvalDone pid i s2.
Proof.
  intros H.
  assert (Hpre : ∃ e, hasRole s DEFAULT_ADMIN_ROLE sender = true
    ∧ status (getProject s pid) ≠ Cancelled
    ∧ getProjectExpenses s pid !! N.to_nat i = Some e
    ∧ approved e = false
    ∧ totalExpenses (getProject s pid) + amount e ≤ uint256_max).
  { pose proof H as H'. unfold approveExpense in H'. cbv zeta in H'. ok_inv.
    storage. bool_facts. eexists. repeat split; eauto.
    unfold hasRole. apply bool_decide_eq_true_2. assumption. }
  destruct Hpre as (e & Hr & Hst & He & Ha & Ho).
  rewrite (approveExpense_run call sender pid i s e) in H by assumption.
  destruct (call _ _ _) as [s2|] eqn:Hc; [|discriminate].
  injection H as <-. exists e, s2. auto 10.
Qed.

(** X4. An expense is paid at most once: after a successful
    [approveExpense] of an expense, every later [approveExpense] of the same
    expense reverts, whoever calls it and whatever happened in between. *)
Theorem expense_is_paid_at_most_once code depth now sender pid i s ret s' :
  exec code depth now sender (ActApproveExpense pid i) s = Ok (ret, s') →
  ∀ txs depth' now' sender',
    ∃ err, exec code depth' now' sender' (ActApproveExpense pid i)
             (replay code s' txs) = Revert err.
Proof.
  intros H txs depth' now' sender'.
  rewrite exec_unfold in H. cbn [dispatch] in H. ok_inv.
  apply approveExpense_inv in H as (e & s2 & _ & _ & He & _ & _ & Hc & ->).
  destruct (approvalStaged_facts pid i e s He) as [Hflag _].
  apply ledger_grows_transfer in Hc.
  destruct (lg_expenses _ _ Hc _ _ _ Hflag) as (e1 & He1 & K1).
  assert (He1' : getProjectExpenses (approvalDone pid i s2) pid !! N.to_nat i = Some e1)
    by exact He1.
  destruct (lg_expenses _ _ (ledger_grows_replay code txs _) _ _ _ He1')
    as (e2 & He2 & K2).
  assert (Ha2 : approved e2 = true).
  { apply K2, K1. reflexivity. }
  rewrite exec_unfold. cbn [dispatch].
  destruct (approveExpense_again (transfer code depth' now') sender' pid i _ e2 He2 Ha2)
    as [err ->].
  eexists. reflexivity.
Qed.

(** ** The derived figures agree with the lists *)

Lemma approved_total_snoc (l : list Expense) (x : Expense) :
  approved_total (l ++ [x])
  = approved_total l + (if approved x then amount x else 0).
Proof.
  unfold approved_total.
  induction l as [|y l IH]; simpl.
  - destruct (approved x); lia.
  - rewrite IH. destruct (approved y); lia.
Qed.

Lemma approved_total_approve (l : list Expense) i e :
  l !! i = Some e →
  approved e = false →
  approved_total (<[i := with_approved true e]> l) = approved_total l + amount e.
Proof.
  unfold approved_total. revert i.
  induction l as [|y l IH]; intros [|i] He Ha; simpl in *; try discriminate.
  - injection He as ->. rewrite Ha. lia.
  - rewrite (IH i He Ha). destruct (approved y); lia.
Qed.

Lemma contributed_by_snoc a (l : list Contribution) (c : Contribution) :
  contributed_by a (l ++ [c])
  = contributed_by a l + (if contributor c =? a then ctr_amount c else 0).
Proof.
  unfold contributed_by.
  induction l as [|y l IH]; simpl.
  - destruct (contributor c =? a); lia.
  - rewrite IH. destruct (contributor y =? a); lia.
Qed.

Ltac books_tac Hs Ha Hf :=
  split; intros pid; intros;
  pose proof (Hs pid) as Hsp; pose proof (Hf pid) as Hfp;
  try match goal with a : N |- context [contributed_by ?a _] =>
        pose proof (Ha pid a) as Hap end;
  storage; map_cases; storage;
  rewrite ?approved_total_snoc, ?contributed_by_snoc;
  cbn [approved amount contributor ctr_amount];
  rewrite ?N.eqb_refl;
  try match goal with n : (?p, ?x) ≠ (?p, ?y) |- _ =>
        rewrite (proj2 (N.eqb_neq x y)) by congruence end;
  try done; try lia.

Lemma keeps_books_balance b s : keeps_books s (set_balance b s).
Proof.
  intros [Hs Ha Hf]. split; intros pid; [apply Hs|intros a; apply Ha|apply Hf].
Qed.

Lemma keeps_books_dispatch (call : CallValue) sender now a s ret s' :
  (∀ to v s0 s1, call to v s0 = Some s1 → keeps_books s0 s1) →
  dispatch call sender now a s = Ok (ret, s') → keeps_books s s'.
Proof.
  intros Hcall H [Hs Ha Hf]. destruct a; simpl in H.
  - unfold createProject in H. cbv zeta in H. ok_inv. storage. bool_facts.
    books_tac Hs Ha Hf.
  - unfold contribute in H. cbv zeta in H. ok_inv. storage. bool_facts.
    books_tac Hs Ha Hf.
  - unfold submitExpense in H. cbv zeta in H. ok_inv. storage. bool_facts.
    books_tac Hs Ha Hf.
  - unfold approveExpense in H. cbv zeta in H. ok_inv.
    match goal with Hc : call _ _ ?st = Some _ |- _ =>
      apply Hcall in Hc; assert (books_ok st) as Hst end.
    { storage. bool_facts. books_tac Hs Ha Hf.
      erewrite approved_total_approve by eassumption. lia. }
    match goal with Hc : keeps_books _ _ |- _ =>
      apply Hc in Hst as [Hs' Ha' Hf'] end.
    books_tac Hs' Ha' Hf'.
  - unfold completeProject in H. cbv zeta in H. ok_inv. storage. bool_facts.
    books_tac Hs Ha Hf.
  - unfold cancelProject in H. cbv zeta in H. ok_inv. storage. bool_facts.
    books_tac Hs Ha Hf.
  - unfold claimRefund in H. cbv zeta in H. ok_inv.
    match goal with Hc : call _ _ ?st = Some _ |- _ =>
      apply Hcall in Hc; assert (books_ok st) as Hst
        by books_tac Hs Ha Hf;
      apply Hc in Hst as [Hs' Ha' Hf'] end.
    books_tac Hs' Ha' Hf'.
  - unfold pause in H. ok_inv. books_tac Hs Ha Hf.
  - unfold unpause in H. ok_inv. books_tac Hs Ha Hf.
  - unfold grantProjectCreatorRole, grantRole, _grantRole in H. ok_inv.
    destruct (hasRole s _ account); books_tac Hs Ha Hf.
  - unfold grantRole, _grantRole in H. ok_inv.
    destruct (hasRole s _ account); books_tac Hs Ha Hf.
  - unfold revokeRole, _revokeRole in H. ok_inv.
    destruct (hasRole s _ account); books_tac Hs Ha Hf.
  - discriminate.
Qed.

Lemma books_ok_constructor deployer : books_ok (constructor deployer).
Proof.
  unfold constructor, _grantRole.
  split; intros pid; intros;
    repeat match goal with |- context [hasRole ?s ?r ?a] =>
      destruct (hasRole s r a) end;
    storage; rewrite ?lookup_empty; reflexivity.
Qed.

(** X5. From deployment on, the approved total of every project is exactly
    the sum of the amounts of its approved expenses, the aggregate recorded
    for a contributor is exactly the sum of the contributions logged for
    that contributor, and the [fundsReleased] flag of every project is
    still false (no function ever writes it). *)
Theorem figures_match_the_lists code deployer txs pid a :
  let s := replay code (constructor deployer) txs in
  totalExpenses (getProject s pid) = approved_total (getProjectExpenses s pid)
  ∧ getContribution s pid a = contributed_by a (getProjectContributions s pid)
  ∧ fundsReleased (getProject s pid) = false.
Proof.
  intros s.
  assert (H : books_ok s).
  { apply (replay_lift code keeps_books); unfold keeps_books; auto.
    - intros b s0. apply keeps_books_balance.
    - intros call sender now act s0 ret s1. apply keeps_books_dispatch.
    - apply books_ok_constructor. }
  destruct H as [Hs Ha Hf]. auto.
Qed.

(** ** Conservation of ether *)

(** The same lifting as before, for properties that see the balance: here
    the outbound transfer is known to take the amount out of the balance
    before the recipient runs. *)
Section DebitLifting.

Variable code : address → Script.
Variable R : State → State → Prop.

Hypothesis R_refl : ∀ s, R s s.
Hypothesis R_trans : ∀ s1 s2 s3, R s1 s2 → R s2 s3 → R s1 s3.
Hypothesis R_dispatch :
  ∀ (call : CallValue) sender now a s ret s',
    (∀ to v s0 s1, call to v s0 = Some s1 →
       v ≤ balance s0 ∧ R (set_balance (balance s0 - v) s0) s1) →
    dispatch call sender now a s = Ok (ret, s') → R s s'.

Lemma send_debits recipient :
  (∀ to s s', recipient to s = Some s' → R s s') →
  ∀ to v s0 s1, send recipient to v s0 = Some s1 →
    v ≤ balance s0 ∧ R (set_balance (balance s0 - v) s0) s1.
Proof.
  intros Hrec to v s0 s1. unfold send.
  destruct (N.ltb_spec (balance s0) v) as [|Hle]; [discriminate|].
  intros Hs. split; [exact Hle | eapply Hrec, Hs].
Qed.

Lemma exec_debit_lift depth :
  ∀ now sender a s ret s',
    exec code depth now sender a s = Ok (ret, s') → R s s'.
Proof.
  induction depth as [|d IH]; intros now sender a s ret s' H; simpl in H.
  - eapply R_dispatch, H. apply send_debits. discriminate.
  - eapply R_dispatch, H. apply send_debits.
    intros to s0 s1. apply (runScript_lift R R_refl R_trans).
    intros who; apply IH.
Qed.

Lemma replay_debit_lift txs : ∀ s, R s (replay code s txs).
Proof.
  induction txs as [|tx txs IH]; intros s; simpl.
  - apply R_refl.
  - eapply R_trans; [|apply IH]. unfold transact.
    destruct (exec code _ _ _ _ s) as [[ret s']|e] eqn:H.
    + eapply exec_debit_lift, H.
    + apply R_refl.
Qed.

End DebitLifting.

Lemma paid_in_snoc evs ev :
  paid_in (evs ++ [ev])
  = paid_in evs + match ev with ContributionMade _ _ v => v | _ => 0 end.
Proof.
  unfold paid_in. induction evs as [|x evs IH]; simpl.
  - destruct ev; lia.
  - rewrite IH. destruct x; lia.
Qed.

Lemma paid_out_snoc evs ev :
  paid_out (evs ++ [ev])
  = paid_out evs + match ev with
                   | FundsReleased _ v => v
                   | RefundClaimed _ _ v => v
                   | _ => 0
                   end.
Proof.
  unfold paid_out. induction evs as [|x evs IH]; simpl.
  - destruct ev; lia.
  - rewrite IH. destruct x; lia.
Qed.

Lemma accounted_refl s : accounted s s.
Proof. split; [unfold conserves; lia | apply ledger_grows_refl]. Qed.

Lemma accounted_trans s1 s2 s3 :
  accounted s1 s2 → accounted s2 s3 → accounted s1 s3.
Proof.
  intros [C1 G1] [C2 G2]. split.
  - unfold conserves in *. lia.
  - eapply ledger_grows_trans; eassumption.
Qed.

Ltac conserve_tac :=
  unfold conserves; storage;
  rewrite ?paid_in_snoc, ?paid_out_snoc; lia.

Lemma accounted_dispatch (call : CallValue) sender now a s ret s' :
  (∀ to v s0 s1, call to v s0 = Some s1 →
     v ≤ balance s0 ∧ accounted (set_balance (balance s0 - v) s0) s1) →
  dispatch call sender now a s = Ok (ret, s') → accounted s s'.
Proof.
  intros Hcall H. split.
  2:{ eapply ledger_grows_dispatch; [|exact H].
      intros to v s0 s1 Hc. destruct (Hcall to v s0 s1 Hc) as [_ [_ Hg]].
      eapply ledger_grows_trans; [apply ledger_grows_balance | exact Hg]. }
  destruct a; simpl in H.
  - unfold createProject in H. cbv zeta in H. ok_inv. conserve_tac.
  - unfold contribute in H. cbv zeta in H. ok_inv. conserve_tac.
  - unfold submitExpense in H. cbv zeta in H. ok_inv. conserve_tac.
  - ok_inv.
    match goal with H : approveExpense _ _ ?pid ?i ?s = Ok _ |- _ =>
      apply approveExpense_inv in H as (e & s2 & _ & _ & He & _ & _ & Hc & ->);
      destruct (Hcall _ _ _ _ Hc) as (Hle & Hcons & Hgrow);
      destruct (approvalStaged_facts pid i e s He) as [Hflag _];
      destruct (lg_expenses _ _ Hgrow pid (N.to_nat i) _ Hflag)
        as (e1 & He1 & K1)
    end.
    destruct K1 as (_ & Hamt & _). cbn [amount with_approved] in Hamt.
    unfold conserves, approvalDone, approvalStaged in *. storage.
    rewrite He1. cbn [fmap option_fmap option_map from_option id].
    rewrite !paid_in_snoc, !paid_out_snoc. lia.
  - unfold completeProject in H. cbv zeta in H. ok_inv. conserve_tac.
  - unfold cancelProject in H. cbv zeta in H. ok_inv. conserve_tac.
  - ok_inv.
    apply claimRefund_inv in H as (_ & _ & _ & _ & s2 & Hc & ->).
    destruct (Hcall _ _ _ _ Hc) as (Hle & Hcons & _).
    unfold conserves, refundDone, refundStaged in *. storage.
    rewrite !paid_in_snoc, !paid_out_snoc. lia.
  - unfold pause in H. ok_inv. conserve_tac.
  - unfold unpause in H. ok_inv. conserve_tac.
  - unfold grantProjectCreatorRole, grantRole, _grantRole in H. ok_inv.
    destruct (hasRole s _ account); conserve_tac.
  - unfold grantRole, _grantRole in H. ok_inv.
    destruct (hasRole s _ account); conserve_tac.
  - unfold revokeRole, _revokeRole in H. ok_inv.
    destruct (hasRole s _ account); conserve_tac.
  - discriminate.
Qed.

Lemma accounted_replay code txs s : accounted s (replay code s txs).
Proof.
  apply (replay_debit_lift code accounted).
  - apply accounted_refl.
  - apply accounted_trans.
  - intros call sender now a. apply accounted_dispatch.
Qed.

(** X6. Ether is conserved: between any two states of a run, the balance
    has moved by exactly the contributions logged ([ContributionMade]) minus
    the payouts logged ([FundsReleased], [RefundClaimed]) in between,
    whatever the recipients' code does; so from deployment on the balance
    plus everything paid out equals everything paid in. *)
Theorem ether_is_conserved :
  (∀ code txs s,
     let s' := replay code s txs in
     balance s' + paid_out (events s') + paid_in (events s)
     = balance s + paid_out (events s) + paid_in (events s'))
  ∧ (∀ code deployer txs,
       let s := replay code (constructor deployer) txs in
       balance s + paid_out (events s) = paid_in (events s)).
Proof.
  split.
  - intros code txs s s'. apply (accounted_replay code txs s).
  - intros code deployer txs s.
    destruct (accounted_replay code txs (constructor deployer)) as [Hc _].
    unfold conserves in Hc. fold s in Hc.
    assert (H0 : balance (constructor deployer) = 0
                 ∧ paid_in (events (constructor deployer)) = 0
                 ∧ paid_out (events (constructor deployer)) = 0).
    { unfold constructor, _grantRole.
      repeat match goal with |- context [hasRole ?s ?r ?a] =>
        destruct (hasRole s r a) end; storage; auto. }
    destruct H0 as (Hb & Hi & Ho). lia.
Qed.

(** ** Outcomes of the entry points *)

(** Evaluate a chain of checks with the facts at hand. *)
Ltac settle_checks :=
  repeat first
    [ progress cbn [mbind Result_bind negb]
    | match goal with
      | H : ?c = true |- context [if ?c then _ else _] => rewrite H
      | H : ?c = false |- context [if ?c then _ else _] => rewrite H
      | H : ?c = true |- context [negb ?c] => rewrite H
      | H : ?c = false |- context [negb ?c] => rewrite H
      | H : ?x < ?y |- context [?x <? ?y] => rewrite (proj2 (N.ltb_lt x y) H)
      | H : ?y ≤ ?x |- context [?x <? ?y] => rewrite (proj2 (N.ltb_ge x y) H)
      | H : ?x ≤ ?y |- context [?x <=? ?y] => rewrite (proj2 (N.leb_le x y) H)
      | H : ?y < ?x |- context [?x <=? ?y] => rewrite (proj2 (N.leb_gt x y) H)
      | H : ?x = ?y |- context [?x =? ?y] => rewrite (proj2 (N.eqb_eq x y) H)
      | H : ?x ≠ ?y |- context [?x =? ?y] => rewrite (proj2 (N.eqb_neq x y) H)
      | H : ?P |- context [bool_decide ?P] => rewrite (bool_decide_eq_true_2 P H)
      | H : ¬ ?P |- context [bool_decide ?P] => rewrite (bool_decide_eq_false_2 P H)
      end ].

(** X7. With the system unpaused and no guarded call in progress,
    [contribute] succeeds exactly when the project exists, is Active, the
    deadline is still ahead, the value is at least the minimum and fits
    under the goal (and in the counters); otherwise it reverts with the
    message of the first of these checks that fails: a project id never
    created, a Completed or Cancelled project, the deadline reached (the
    deadline itself included), a value below 0.01 ether, a value that
    would exceed the goal. *)
Theorem contribute_outcome sender now v pid s :
  _paused s = false →
  _status s = false →
  let p := getProject s pid in
  ((∃ s', contribute sender now v pid s = Ok s')
   ↔ creator p ≠ 0 ∧ status p = Active ∧ now < deadline p
     ∧ MINIMUM_CONTRIBUTION ≤ v
     ∧ currentAmount p + v ≤ goalAmount p
     ∧ currentAmount p + v ≤ uint256_max
     ∧ getContribution s pid sender + v ≤ uint256_max)
  ∧ (creator p = 0 →
     contribute sender now v pid s = Revert (Reason "Project does not exist"))
  ∧ (creator p ≠ 0 → status p ≠ Active →
     contribute sender now v pid s = Revert (Reason "Project is not active"))
  ∧ (creator p ≠ 0 → status p = Active → deadline p ≤ now →
     contribute sender now v pid s
     = Revert (Reason "Project funding period has ended"))
  ∧ (creator p ≠ 0 → status p = Active → now < deadline p →
     v < MINIMUM_CONTRIBUTION →
     contribute sender now v pid s = Revert (Reason "Contribution too small"))
  ∧ (creator p ≠ 0 → status p = Active → now < deadline p →
     MINIMUM_CONTRIBUTION ≤ v →
     currentAmount p + v ≤ uint256_max →
     goalAmount p < currentAmount p + v →
     contribute sender now v pid s = Revert (Reason "Exceeds project goal")).
Proof.
  intros Hp Hl p.
  repeat apply conj.
  - intros [s' H]. unfold contribute in H. cbv zeta in H. ok_inv. storage.
    bool_facts. repeat split; assumption.
  - intros (Hc & Hst & Hd & Hm & Hg & Ho & Ha).
    unfold contribute, whenNotPaused, nonReentrant, require, checked_add.
    storage. fold p. settle_checks. eauto.
  - intros Hc. unfold contribute, whenNotPaused, nonReentrant, require.
    storage. fold p. settle_checks. reflexivity.
  - intros Hc Hst. unfold contribute, whenNotPaused, nonReentrant, require.
    storage. fold p. settle_checks. reflexivity.
  - intros Hc Hst Hd. unfold contribute, whenNotPaused, nonReentrant, require.
    storage. fold p. settle_checks. reflexivity.
  - intros Hc Hst Hd Hm. unfold contribute, whenNotPaused, nonReentrant, require.
    storage. fold p. settle_checks. reflexivity.
  - intros Hc Hst Hd Hm Ho Hg.
    unfold contribute, whenNotPaused, nonReentrant, require, checked_add.
    storage. fold p. settle_checks. reflexivity.
Qed.


(** X9. For an Admin on a project that is not Cancelled, [approveExpense]
    succeeds exactly when the index names an expense that is not approved
    yet and the transfer of its amount to the creator succeeds (the approved
    total must also fit its counter); an index past the end of the list, or
    any index on a project without expenses, panics with an array
    out-of-bounds error, and an approved expense gives "Expense already
    approved". *)
Theorem approveExpense_outcome call sender pid i s :
  hasRole s DEFAULT_ADMIN_ROLE sender = true →
  status (getProject s pid) ≠ Cancelled →
  ((∃ s', approveExpense call sender pid i s = Ok s')
   ↔ ∃ e s2,
       getProjectExpenses s pid !! N.to_nat i = Some e
       ∧ approved e = false
       ∧ totalExpenses (getProject s pid) + amount e ≤ uint256_max
       ∧ call (creator (getProject s pid)) (amount e) (approvalStaged pid i e s)
         = Some s2)
  ∧ (N.of_nat (length (getProjectExpenses s pid)) ≤ i →
     approveExpense call sender pid i s = Revert (Panic 0x32))
  ∧ (∀ e, getProjectExpenses s pid !! N.to_nat i = Some e →
          approved e = true →
          approveExpense call sender pid i s
          = Revert (Reason "Expense already approved")).
Proof.
  intros Hr Hst. repeat apply conj.
  - intros [s' H].
    apply approveExpense_inv in H as (e & s2 & _ & _ & He & Ha & Ho & Hc & _).
    eauto 10.
  - intros (e & s2 & He & Ha & Ho & Hc).
    rewrite (approveExpense_run call sender pid i s e) by assumption.
    rewrite Hc. eauto.
  - intros Hlen. unfold approveExpense, onlyRole, require.
    rewrite Hr. rewrite (bool_decide_eq_false_2 _ Hst).
    cbn [mbind Result_bind negb].
    rewrite (proj2 (lookup_ge_None _ _)) by lia. reflexivity.
  - intros e He Ha. unfold approveExpense, onlyRole, require.
    rewrite Hr. rewrite (bool_decide_eq_false_2 _ Hst).
    cbn [mbind Result_bind negb]. rewrite He, Ha. reflexivity.
Qed.


(** ** Roles, pause switch and deployment *)

Lemma hasRole_grant role account sender s r b :
  hasRole (_grantRole role account sender s) r b
  = if decide ((r, b) = (role, account)) then true else hasRole s r b.
Proof.
  destruct (decide ((r, b) = (role, account))) as [Heq|Hne];
    unfold _grantRole; destruct (hasRole s role account) eqn:Hh.
  - injection Heq as -> ->. exact Hh.
  - unfold hasRole. storage. apply bool_decide_eq_true_2. rewrite Heq.
    apply elem_of_union. left. apply elem_of_singleton. reflexivity.
  - reflexivity.
  - unfold hasRole. storage. apply bool_decide_ext.
    rewrite elem_of_union, elem_of_singleton. tauto.
Qed.

(** X11. An Admin can always grant the creator role: the call succeeds,
    the account then holds the role, no other role membership and nothing
    in storage apart from the role table changes, granting again changes
    nothing at all, and the account can from then on create projects (under
    the conditions of [createProject] on goal and duration). *)
Theorem granted_creator_can_create sender account s :
  hasRole s DEFAULT_ADMIN_ROLE sender = true →
  ∃ s1,
    grantProjectCreatorRole sender account s = Ok s1
    ∧ hasRole s1 PROJECT_CREATOR_ROLE account = true
    ∧ (∀ r b, (r, b) ≠ (PROJECT_CREATOR_ROLE, account) →
              hasRole s1 r b = hasRole s r b)
    ∧ (projects s1 = projects s ∧ projectExpenses s1 = projectExpenses s
       ∧ projectContributions s1 = projectContributions s
       ∧ contributions s1 = contributions s
       ∧ refundClaimed s1 = refundClaimed s
       ∧ projectCount s1 = projectCount s ∧ _paused s1 = _paused s
       ∧ _status s1 = _status s ∧ balance s1 = balance s)
    ∧ grantProjectCreatorRole sender account s1 = Ok s1
    ∧ (∀ now t d g n,
         _paused s = false →
         projectCount s < uint256_max →
         now + MAXIMUM_FUNDING_PERIOD ≤ uint256_max →
         0 < g → 1 ≤ n ≤ 90 →
         ∃ s2, createProject account now t d g n s1 = Ok s2).
Proof.
  intros Hr.
  exists (_grantRole PROJECT_CREATOR_ROLE account sender s).
  assert (Hrun : ∀ st, hasRole st DEFAULT_ADMIN_ROLE sender = true →
            grantProjectCreatorRole sender account st
            = Ok (_grantRole PROJECT_CREATOR_ROLE account sender st)).
  { intros st Hst. unfold grantProjectCreatorRole, grantRole, getRoleAdmin, onlyRole.
    rewrite Hst. reflexivity. }
  assert (Hhas : hasRole (_grantRole PROJECT_CREATOR_ROLE account sender s)
                   PROJECT_CREATOR_ROLE account = true).
  { rewrite hasRole_grant. rewrite decide_True; reflexivity. }
  assert (Hframe : projects (_grantRole PROJECT_CREATOR_ROLE account sender s) = projects s
       ∧ projectExpenses (_grantRole PROJECT_CREATOR_ROLE account sender s) = projectExpenses s
       ∧ projectContributions (_grantRole PROJECT_CREATOR_ROLE account sender s)
         = projectContributions s
       ∧ contributions (_grantRole PROJECT_CREATOR_ROLE account sender s) = contributions s
       ∧ refundClaimed (_grantRole PROJECT_CREATOR_ROLE account sender s) = refundClaimed s
       ∧ projectCount (_grantRole PROJECT_CREATOR_ROLE account sender s) = projectCount s
       ∧ _paused (_grantRole PROJECT_CREATOR_ROLE account sender s) = _paused s
       ∧ _status (_grantRole PROJECT_CREATOR_ROLE account sender s) = _status s
       ∧ balance (_grantRole PROJECT_CREATOR_ROLE account sender s) = balance s).
  { unfold _grantRole. destruct (hasRole s PROJECT_CREATOR_ROLE account);
      storage; auto 10. }
  split; [apply Hrun, Hr|]. split; [exact Hhas|].
  split.
  { intros r b Hne. rewrite hasRole_grant. rewrite decide_False by exact Hne.
    reflexivity. }
  split; [exact Hframe|]. split.
  - rewrite Hrun.
    + f_equal. unfold _grantRole at 1. rewrite Hhas. reflexivity.
    + rewrite hasRole_grant. destruct (decide _); [reflexivity|exact Hr].
  - intros now t d g n Hp Hc Ht Hg Hn.
    destruct Hframe as (_ & _ & _ & _ & _ & Hcount & Hpaused & _).
    eexists. apply createProject_Ok.
    rewrite Hcount, Hpaused.
    repeat split; try assumption; try reflexivity;
      unfold MINIMUM_FUNDING_PERIOD, MAXIMUM_FUNDING_PERIOD, uint256_max, days in *;
      lia.
Qed.

(** X12. Pausing and unpausing by Admins is a round trip: from an
    unpaused state [pause] succeeds and sets the switch, [unpause] then
    succeeds and clears it, and the result differs from the starting state
    only by the two log entries.  Pausing a paused system fails with
    SystemPaused, and unpausing an unpaused one fails too. *)
Theorem pause_then_unpause_restores admin1 admin2 s :
  hasRole s DEFAULT_ADMIN_ROLE admin1 = true →
  hasRole s DEFAULT_ADMIN_ROLE admin2 = true →
  _paused s = false →
  ∃ s1 s2,
    pause admin1 s = Ok s1
    ∧ _paused s1 = true
    ∧ unpause admin2 s1 = Ok s2
    ∧ same_storage s s2
    ∧ events s2 = events s ++ [Paused admin1; Unpaused admin2]
    ∧ pause admin1 s1 = Revert SystemPaused
    ∧ unpause admin2 s = Revert ExpectedPause
    ∧ unpause admin2 s2 = Revert ExpectedPause.
Proof.
  intros H1 H2 Hp.
  exists (emit (Paused admin1) (set_paused true s)).
  exists (emit (Unpaused admin2)
            (set_paused false (emit (Paused admin1) (set_paused true s)))).
  assert (H2' : ∀ st, _roles st = _roles s → hasRole st DEFAULT_ADMIN_ROLE admin2 = true).
  { intros st Hst. unfold hasRole in *. rewrite Hst. exact H2. }
  assert (H1' : ∀ st, _roles st = _roles s → hasRole st DEFAULT_ADMIN_ROLE admin1 = true).
  { intros st Hst. unfold hasRole in *. rewrite Hst. exact H1. }
  repeat apply conj; try reflexivity.
  - unfold pause, onlyRole, whenNotPaused. rewrite H1, Hp. reflexivity.
  - unfold unpause, onlyRole, whenPaused. rewrite H2' by reflexivity. reflexivity.
  - exact Hp.
  - storage. rewrite <- app_assoc. reflexivity.
  - unfold pause, onlyRole, whenNotPaused. rewrite H1' by reflexivity. reflexivity.
  - unfold unpause, onlyRole, whenPaused. rewrite H2, Hp. reflexivity.
  - unfold unpause, onlyRole, whenPaused. rewrite H2' by reflexivity. reflexivity.
Qed.

(** X13. Right after deployment the deployer, and nobody else, holds the
    Admin and creator roles; there is no project, no ether, the system is
    not paused, and the log holds the two role grants. *)
Theorem deployment_state deployer :
  let s := constructor deployer in
  (∀ r a, hasRole s r a = true ↔ a = deployer)
  ∧ projectCount s = 0
  ∧ balance s = 0
  ∧ _paused s = false
  ∧ _status s = false
  ∧ (∀ pid, getProject s pid = zeroProject
            ∧ getProjectExpenses s pid = []
            ∧ getProjectContributions s pid = [])
  ∧ events s = [RoleGranted DEFAULT_ADMIN_ROLE deployer deployer;
                RoleGranted PROJECT_CREATOR_ROLE deployer deployer].
Proof.
  intros s.
  assert (Hno : ∀ r a, hasRole emptyState r a = false).
  { intros r a. unfold hasRole. apply bool_decide_eq_false_2.
    cbn. apply not_elem_of_empty. }
  assert (H1 : _grantRole DEFAULT_ADMIN_ROLE deployer deployer emptyState
               = emit (RoleGranted DEFAULT_ADMIN_ROLE deployer deployer)
                   (set_roles ({[ (DEFAULT_ADMIN_ROLE, deployer) ]} ∪ ∅) emptyState)).
  { unfold _grantRole. rewrite Hno. reflexivity. }
  assert (Hs : s = emit (RoleGranted PROJECT_CREATOR_ROLE deployer deployer)
                 (set_roles ({[ (PROJECT_CREATOR_ROLE, deployer) ]}
                             ∪ ({[ (DEFAULT_ADMIN_ROLE, deployer) ]} ∪ ∅))
                    (emit (RoleGranted DEFAULT_ADMIN_ROLE deployer deployer)
                       (set_roles ({[ (DEFAULT_ADMIN_ROLE, deployer) ]} ∪ ∅)
                          emptyState)))).
  { unfold s, constructor.
    assert (H2 : hasRole (_grantRole DEFAULT_ADMIN_ROLE deployer deployer emptyState)
                   PROJECT_CREATOR_ROLE deployer = false).
    { rewrite hasRole_grant. rewrite decide_False by discriminate. apply Hno. }
    unfold _grantRole at 1. rewrite H2, H1. reflexivity. }
  assert (Hroles : ∀ r a, hasRole s r a = true ↔ a = deployer).
  { intros r a. unfold s, constructor. rewrite !hasRole_grant, Hno.
    destruct r; repeat destruct (decide _); split; intros; congruence. }
  split; [exact Hroles|].
  rewrite Hs. repeat apply conj; try reflexivity.
  intros pid. unfold emptyState. storage. rewrite !lookup_empty. auto.
Qed.

(** ** Locality and composition *)

Lemma transfer_plain depth now to v s s2 :
  transfer plain depth now to v s = Some s2 →
  v ≤ balance s ∧ s2 = set_balance (balance s - v) s.
Proof.
  unfold transfer, send. destruct (N.ltb_spec (balance s) v) as [|Hle];
    [discriminate|].
  destruct depth; [discriminate|]. cbn. intros [= <-]. auto.
Qed.

(** X14. Projects are independent of each other: a successful
    [contribute], [submitExpense], [approveExpense], [completeProject],
    [cancelProject] or [claimRefund] on one project (the recipients being
    plain accounts) leaves the record, the expenses, the contribution log,
    the aggregates and the refund flags of every other project as they
    were, and touches neither the project counter, nor the pause switch,
    nor the roles. *)
Theorem project_operations_are_local depth now sender a pid s ret s' :
  target a = Some pid →
  exec plain depth now sender a s = Ok (ret, s') →
  (∀ q, q ≠ pid →
     getProject s' q = getProject s q
     ∧ getProjectExpenses s' q = getProjectExpenses s q
     ∧ getProjectContributions s' q = getProjectContributions s q
     ∧ (∀ b, getContribution s' q b = getContribution s q b)
     ∧ (∀ b, getRefundClaimed s' q b = getRefundClaimed s q b))
  ∧ projectCount s' = projectCount s
  ∧ _paused s' = _paused s
  ∧ _roles s' = _roles s.
Proof.
  intros Ht H. rewrite exec_unfold in H.
  destruct a; try discriminate Ht; injection Ht as ->; cbn [dispatch] in H; ok_inv.
  - unfold contribute in H. cbv zeta in H. ok_inv. storage.
    repeat split; intros; rewrite ?lookup_insert_ne by congruence; reflexivity.
  - unfold submitExpense in H. cbv zeta in H. ok_inv. storage.
    repeat split; intros; rewrite ?lookup_insert_ne by congruence; reflexivity.
  - apply approveExpense_inv in H as (e & s2 & _ & _ & _ & _ & _ & Hc & ->).
    apply transfer_plain in Hc as [_ ->].
    unfold approvalDone, approvalStaged. storage.
    repeat split; intros; rewrite ?lookup_insert_ne by congruence; reflexivity.
  - apply completeProject_Ok in H as (_ & _ & ->). storage.
    repeat split; intros; rewrite ?lookup_insert_ne by congruence; reflexivity.
  - apply cancelProject_Ok in H as (_ & _ & ->). storage.
    repeat split; intros; rewrite ?lookup_insert_ne by congruence; reflexivity.
  - apply claimRefund_inv in H as (_ & _ & _ & _ & s2 & Hc & ->).
    apply transfer_plain in Hc as [_ ->].
    unfold refundDone, refundStaged. storage.
    repeat split; intros; rewrite ?lookup_insert_ne by congruence; reflexivity.
Qed.

(** X15. The funds check made at submission protects a lone expense: when
    an expense is submitted and then approved before anything else touches
    the project (the creator being a plain account), the approved total
    grows by exactly its amount and stays within the amount raised. *)
Theorem lone_expense_stays_within_funds
    sender admin now now' depth pid d amt c u s s1 ret s2 :
  submitExpense sender now pid d amt c u s = Ok s1 →
  exec plain depth now' admin
    (ActApproveExpense pid (N.of_nat (length (getProjectExpenses s pid)))) s1
  = Ok (ret, s2) →
  totalExpenses (getProject s2 pid) = totalExpenses (getProject s pid) + amt
  ∧ currentAmount (getProject s2 pid) = currentAmount (getProject s pid)
  ∧ totalExpenses (getProject s2 pid) ≤ currentAmount (getProject s2 pid)
  ∧ balance s2 + amt = balance s.
Proof.
  intros Hsub Happ.
  unfold submitExpense in Hsub. cbv zeta in Hsub. ok_inv. bool_facts.
  rewrite exec_unfold in Happ. cbn [dispatch] in Happ. ok_inv.
  apply approveExpense_inv in Happ as (e & s3 & _ & _ & He & _ & _ & Hc & ->).
  apply transfer_plain in Hc as [Hle ->].
  unfold approvalDone, approvalStaged in *. storage.
  rewrite lookup_insert_eq in He. storage.
  rewrite Nat2N.id, lookup_app_r in He by lia.
  rewrite Nat.sub_diag in He. injection He as <-.
  rewrite !lookup_insert_eq. storage. cbn [amount] in *. lia.
Qed.

(** X16. Reaching the goal changes no status: a successful [contribute]
    leaves the project Active, also when it brings the amount raised to
    the goal exactly; and a project whose goal is reached accepts no
    further contribution, of any value, from anybody. *)
Theorem funded_project_stays_active :
  (∀ sender now v pid s s',
     contribute sender now v pid s = Ok s' →
     status (getProject s' pid) = Active)
  ∧ (∀ sender now v pid s,
       currentAmount (getProject s pid) = goalAmount (getProject s pid) →
       ∃ e, contribute sender now v pid s = Revert e).
Proof.
  split.
  - intros sender now v pid s s' H.
    unfold contribute in H. cbv zeta in H. ok_inv. storage. bool_facts.
    rewrite lookup_insert_eq. storage. assumption.
  - intros sender now v pid s Hfull.
    destruct (contribute sender now v pid s) as [s'|e] eqn:H; [|eauto].
    unfold contribute in H. cbv zeta in H. ok_inv. storage. bool_facts.
    assert (Hmin : MINIMUM_CONTRIBUTION = 10000000000000000)
      by (vm_compute; reflexivity).
    unfold getProject in Hfull. lia.
Qed.

(** ** More outcomes *)

(** X17. For an Admin, [completeProject] and [cancelProject] succeed
    exactly when the status stored under the id is Active, and otherwise
    revert with "Project not active"; on success the status is all that
    changes in the record.  Neither checks that the project exists: an id
    that was never created reads as a blank Active record, so both succeed
    on it. *)
Theorem status_change_outcome admin pid s :
  hasRole s DEFAULT_ADMIN_ROLE admin = true →
  let p := getProject s pid in
  ((∃ s', completeProject admin pid s = Ok s') ↔ status p = Active)
  ∧ ((∃ s', cancelProject admin pid s = Ok s') ↔ status p = Active)
  ∧ (status p ≠ Active →
     completeProject admin pid s = Revert (Reason "Project not active")
     ∧ cancelProject admin pid s = Revert (Reason "Project not active"))
  ∧ (∀ s', completeProject admin pid s = Ok s' →
           getProject s' pid = with_status Completed p
           ∧ events s' = events s ++ [ProjectCompleted pid])
  ∧ (∀ s', cancelProject admin pid s = Ok s' →
           getProject s' pid = with_status Cancelled p
           ∧ events s' = events s ++ [ProjectCancelled pid])
  ∧ (projects s !! pid = None →
     (∃ s', completeProject admin pid s = Ok s')
     ∧ (∃ s', cancelProject admin pid s = Ok s')).
Proof.
  intros Hr p.
  assert (Hgo1 : status p = Active → ∃ s', completeProject admin pid s = Ok s').
  { intros Hst. unfold completeProject, onlyRole, require. fold p.
    rewrite Hr, Hst. rewrite bool_decide_eq_true_2 by reflexivity. eauto. }
  assert (Hgo2 : status p = Active → ∃ s', cancelProject admin pid s = Ok s').
  { intros Hst. unfold cancelProject, onlyRole, require. fold p.
    rewrite Hr, Hst. rewrite bool_decide_eq_true_2 by reflexivity. eauto. }
  repeat apply conj.
  - intros [s' H]. apply completeProject_Ok in H. tauto.
  - exact Hgo1.
  - intros [s' H]. apply cancelProject_Ok in H. tauto.
  - exact Hgo2.
  - intros Hst. split.
    + unfold completeProject, onlyRole, require. fold p.
      rewrite Hr, (bool_decide_eq_false_2 _ Hst). reflexivity.
    + unfold cancelProject, onlyRole, require. fold p.
      rewrite Hr, (bool_decide_eq_false_2 _ Hst). reflexivity.
  - intros s' H. apply completeProject_Ok in H as (_ & _ & ->).
    unfold getProject. storage. rewrite lookup_insert_eq. auto.
  - intros s' H. apply cancelProject_Ok in H as (_ & _ & ->).
    unfold getProject. storage. rewrite lookup_insert_eq. auto.
  - intros Hnone.
    assert (Hst : status p = Active)
      by (unfold p, getProject; rewrite Hnone; reflexivity).
    auto.
Qed.

(** X18. With no guarded call in progress, [claimRefund] reverts with
    "Project not cancelled" on an Active or Completed project (or an id
    never created), with "No contribution found" for a caller who never
    contributed to the Cancelled project, and with "Refund already claimed"
    for one who has claimed; in the remaining case it succeeds exactly when
    the transfer of the caller's recorded contribution succeeds, and fails
    with TransferFailed otherwise. *)
Theorem claimRefund_outcome call sender pid s :
  _status s = false →
  let p := getProject s pid in
  let c := getContribution s pid sender in
  (status p ≠ Cancelled →
   claimRefund call sender pid s = Revert (Reason "Project not cancelled"))
  ∧ (status p = Cancelled → c = 0 →
     claimRefund call sender pid s = Revert (Reason "No contribution found"))
  ∧ (status p = Cancelled → 0 < c → getRefundClaimed s pid sender = true →
     claimRefund call sender pid s = Revert AlreadyClaimed)
  ∧ (status p = Cancelled → 0 < c → getRefundClaimed s pid sender = false →
     call sender c (refundStaged pid sender s) = None →
     claimRefund call sender pid s = Revert TransferFailed)
  ∧ ((∃ s', claimRefund call sender pid s = Ok s')
     ↔ status p = Cancelled ∧ 0 < c ∧ getRefundClaimed s pid sender = false
       ∧ ∃ s2, call sender c (refundStaged pid sender s) = Some s2).
Proof.
  intros Hl p c. subst p c. repeat apply conj.
  - intros Hst. unfold claimRefund, nonReentrant, require. rewrite Hl.
    storage. rewrite (bool_decide_eq_false_2 _ Hst). reflexivity.
  - intros Hst Hc. unfold claimRefund, nonReentrant, require. rewrite Hl.
    storage. rewrite Hst, Hc.
    rewrite bool_decide_eq_true_2 by reflexivity. reflexivity.
  - intros Hst Hc Hf. apply claimRefund_repeat; assumption.
  - intros Hst Hc Hf Hnone. rewrite claimRefund_run by assumption.
    rewrite Hnone. reflexivity.
  - intros [s' H]. apply claimRefund_inv in H as (_ & Hst & Hc & Hf & s2 & Hcall & _).
    eauto 10.
  - intros (Hst & Hc & Hf & s2 & Hcall). rewrite claimRefund_run by assumption.
    rewrite Hcall. eauto.
Qed.

(** X19. With the system unpaused and a caller holding the creator role,
    [createProject] rejects a zero goal with "Goal amount must be greater
    than 0", a duration of zero days with "Duration too short", a duration
    of more than 90 days with "Duration too long", and a number of days so
    large that its value in seconds does not fit in 256 bits with an
    arithmetic panic. *)
Theorem createProject_rejections sender now t d g n s :
  _paused s = false →
  hasRole s PROJECT_CREATOR_ROLE sender = true →
  (g = 0 →
   createProject sender now t d g n s
   = Revert (Reason "Goal amount must be greater than 0"))
  ∧ (0 < g → n = 0 →
     createProject sender now t d g n s = Revert (Reason "Duration too short"))
  ∧ (0 < g → 90 < n → n * days ≤ uint256_max →
     createProject sender now t d g n s = Revert (Reason "Duration too long"))
  ∧ (0 < g → uint256_max < n * days →
     createProject sender now t d g n s = Revert (Panic 0x11)).
Proof.
  intros Hp Hr.
  assert (Hd : n * (1 * days) = n * days) by lia.
  repeat apply conj.
  - intros ->. unfold createProject, whenNotPaused, onlyRole, require.
    rewrite Hp, Hr. reflexivity.
  - intros Hg ->. unfold createProject, whenNotPaused, onlyRole, require, checked_mul.
    rewrite Hp, Hr. rewrite (proj2 (N.ltb_lt 0 g) Hg). reflexivity.
  - intros Hg Hn Ho.
    assert (Hmin : MINIMUM_FUNDING_PERIOD ≤ n * days)
      by (unfold MINIMUM_FUNDING_PERIOD, days; lia).
    assert (Hmax : MAXIMUM_FUNDING_PERIOD < n * days)
      by (unfold MAXIMUM_FUNDING_PERIOD, days; lia).
    unfold createProject, whenNotPaused, onlyRole, require, checked_mul.
    rewrite !Hd. settle_checks. reflexivity.
  - intros Hg Ho.
    unfold createProject, whenNotPaused, onlyRole, require, checked_mul.
    rewrite !Hd. settle_checks. reflexivity.
Qed.

(** ** The further theorems at work on the scenarios *)

Lemma expenses_are_append_only_witness :
  ∃ e', getProjectExpenses paid 0 !! 0%nat = Some e' ∧ expense_kept expense50 e'.
Proof.
  apply (expenses_are_append_only plain [mkTx 1 1005 1 (ActApproveExpense 0 0)]
           pending 0 0%nat expense50).
  vm_compute. reflexivity.
Defined.

Lemma project_terms_are_fixed_witness :
  goalAmount (getProject cancelled 0) = goalAmount (getProject funded 0)
  ∧ deadline (getProject cancelled 0) = deadline (getProject funded 0).
Proof.
  assert (Hlt : 0 < projectCount funded) by (vm_compute; reflexivity).
  destruct (project_terms_are_fixed plain [mkTx 1 1003 1 (ActCancelProject 0)]
              funded 0 Hlt) as (_ & _ & _ & Hg & Hd & _).
  split; [exact Hg | exact Hd].
Defined.

Lemma expense_is_paid_at_most_once_witness :
  ∃ err, exec plain 1 1007 1 (ActApproveExpense 0 0)
           (replay plain paid [mkTx 2 1006 1 (ActContribute 0 ether)])
         = Revert err.
Proof.
  apply (expense_is_paid_at_most_once plain 1%nat 1005 1 0 0 pending [] paid).
  vm_compute. reflexivity.
Defined.

Lemma contribute_outcome_witness :
  (∃ s', contribute 2 1001 (40 * ether) 0 created = Ok s')
  ∧ contribute 2 1001 (40 * ether) 7 created
    = Revert (Reason "Project does not exist").
Proof.
  assert (Hp : _paused created = false) by (vm_compute; reflexivity).
  assert (Hl : _status created = false) by (vm_compute; reflexivity).
  split.
  - apply (proj1 (contribute_outcome 2 1001 (40 * ether) 0 created Hp Hl)).
    repeat split; vm_compute; discriminate || reflexivity.
  - apply (proj1 (proj2 (contribute_outcome 2 1001 (40 * ether) 7 created Hp Hl))).
    vm_compute. reflexivity.
Defined.


Lemma approveExpense_outcome_witness :
  approveExpense (transfer plain 1 1005) 1 0 5 pending = Revert (Panic 0x32).
Proof.
  assert (Hr : hasRole pending DEFAULT_ADMIN_ROLE 1 = true)
    by (vm_compute; reflexivity).
  assert (Hst : status (getProject pending 0) ≠ Cancelled)
    by (vm_compute; discriminate).
  apply (proj1 (proj2 (approveExpense_outcome (transfer plain 1 1005) 1 0 5
                         pending Hr Hst))).
  vm_compute. discriminate.
Defined.


Lemma granted_creator_can_create_witness :
  ∃ s1, grantProjectCreatorRole 1 7 deployed = Ok s1
        ∧ hasRole s1 PROJECT_CREATOR_ROLE 7 = true.
Proof.
  assert (Hr : hasRole deployed DEFAULT_ADMIN_ROLE 1 = true)
    by (vm_compute; reflexivity).
  destruct (granted_creator_can_create 1 7 deployed Hr) as (s1 & H1 & H2 & _).
  exists s1. split; [exact H1 | exact H2].
Defined.

Lemma pause_then_unpause_restores_witness :
  ∃ s1 s2, pause 1 funded = Ok s1 ∧ unpause 1 s1 = Ok s2 ∧ same_storage funded s2.
Proof.
  assert (Hr : hasRole funded DEFAULT_ADMIN_ROLE 1 = true)
    by (vm_compute; reflexivity).
  assert (Hp : _paused funded = false) by (vm_compute; reflexivity).
  destruct (pause_then_unpause_restores 1 1 funded Hr Hr Hp)
    as (s1 & s2 & H1 & _ & H2 & H3 & _).
  exists s1, s2. auto.
Defined.

Lemma project_operations_are_local_witness :
  getProject (transact plain two_projects (mkTx 1 1003 1 (ActCancelProject 0))) 1
  = getProject two_projects 1.
Proof.
  assert (H : exec plain 1 1003 1 (ActCancelProject 0) two_projects
              = Ok ([], transact plain two_projects
                          (mkTx 1 1003 1 (ActCancelProject 0))))
    by (vm_compute; reflexivity).
  destruct (project_operations_are_local 1%nat 1003 1 (ActCancelProject 0) 0
              two_projects [] _ eq_refl H) as [Hother _].
  destruct (Hother 1) as [Hp _]; [discriminate | exact Hp].
Defined.

Lemma lone_expense_stays_within_funds_witness :
  totalExpenses (getProject paid 0) ≤ currentAmount (getProject paid 0).
Proof.
  assert (Hsub : submitExpense 1 1003 0 "x" (50 * ether) Development "u" funded
                 = Ok pending) by (vm_compute; reflexivity).
  assert (Happ : exec plain 1 1005 1
                   (ActApproveExpense 0
                      (N.of_nat (length (getProjectExpenses funded 0)))) pending
                 = Ok ([], paid)) by (vm_compute; reflexivity).
  exact (proj1 (proj2 (proj2
    (lone_expense_stays_within_funds 1 1 1003 1005 1%nat 0 "x" (50 * ether)
       Development "u" funded pending [] paid Hsub Happ)))).
Defined.

Lemma funded_project_stays_active_witness :
  status (getProject fully_funded 0) = Active
  ∧ ∃ e, contribute 2 1004 ether 0 fully_funded = Revert e.
Proof.
  destruct funded_project_stays_active as [Hactive Hfull].
  split.
  - apply (Hactive 3 1003 (20 * ether) 0 funded fully_funded).
    vm_compute. reflexivity.
  - apply Hfull. vm_compute. reflexivity.
Defined.

Lemma status_change_outcome_witness :
  (∃ s', completeProject 1 0 funded = Ok s')
  ∧ (∃ s', cancelProject 1 5 funded = Ok s').
Proof.
  assert (Hr : hasRole funded DEFAULT_ADMIN_ROLE 1 = true)
    by (vm_compute; reflexivity).
  split.
  - apply (proj1 (status_change_outcome 1 0 funded Hr)).
    vm_compute. reflexivity.
  - apply (proj2 (proj2 (proj2 (proj2 (proj2
             (status_change_outcome 1 5 funded Hr)))))).
    vm_compute. reflexivity.
Defined.

Lemma claimRefund_outcome_witness :
  claimRefund (transfer plain 1 1004) 3 0 cancelled
  = Revert (Reason "No contribution found").
Proof.
  assert (Hl : _status cancelled = false) by (vm_compute; reflexivity).
  apply (proj1 (proj2 (claimRefund_outcome (transfer plain 1 1004) 3 0
                         cancelled Hl)));
    vm_compute; reflexivity.
Defined.

Lemma createProject_rejections_witness :
  createProject 1 1000 "t" "d" ether 91 deployed
  = Revert (Reason "Duration too long").
Proof.
  assert (Hp : _paused deployed = false) by (vm_compute; reflexivity).
  assert (Hr : hasRole deployed PROJECT_CREATOR_ROLE 1 = true)
    by (vm_compute; reflexivity).
  apply (proj1 (proj2 (proj2 (createProject_rejections 1 1000 "t" "d" ether 91
                                deployed Hp Hr)))).
  - vm_compute. reflexivity.
  - vm_compute. reflexivity.
  - vm_compute. discriminate.
Defined.

(** ** No payout for a cancelled project *)

Lemma quiet_refl s : quiet s s.
Proof.
  exists []. split; [symmetry; apply app_nil_r | intros; constructor].
Qed.

Lemma settled_refl s : settled s s.
Proof. split; [apply evolves_refl | apply quiet_refl]. Qed.

Lemma settled_trans s1 s2 s3 : settled s1 s2 → settled s2 s3 → settled s1 s3.
Proof.
  intros [E1 (n1 & H1 & Q1)] [E2 (n2 & H2 & Q2)]. split.
  - eapply evolves_trans; eassumption.
  - exists (n1 ++ n2). split.
    + rewrite H2, H1, app_assoc. reflexivity.
    + intros pid Hlt Hst. apply Forall_app. split; [apply Q1; assumption|].
      apply Q2.
      * pose proof (ev_count _ _ E1). lia.
      * rewrite (ev_terminal _ _ E1 pid Hlt); [exact Hst | congruence].
Qed.

Lemma settled_balance b s : settled s (set_balance b s).
Proof.
  split; [apply evolves_balance|].
  exists []. split; [symmetry; apply app_nil_r | intros; constructor].
Qed.

(** The log grows by the given events, none of them a payout. *)
Ltac quiet_tac :=
  unfold quiet; storage; rewrite <- ?app_assoc;
  first [ eexists; split; [reflexivity|]
        | exists []; split; [symmetry; apply app_nil_r|] ];
  intros; repeat constructor.

Lemma settled_dispatch (call : CallValue) sender now a s ret s' :
  (∀ to v s0 s1, call to v s0 = Some s1 → settled s0 s1) →
  dispatch call sender now a s = Ok (ret, s') → settled s s'.
Proof.
  intros Hcall H. split.
  { eapply evolves_dispatch; [|exact H].
    intros to v s0 s1 Hc. apply (Hcall to v s0 s1 Hc). }
  destruct a; simpl in H.
  - unfold createProject in H. cbv zeta in H. ok_inv. quiet_tac.
  - unfold contribute in H. cbv zeta in H. ok_inv. quiet_tac.
  - unfold submitExpense in H. cbv zeta in H. ok_inv. quiet_tac.
  - ok_inv.
    match goal with H : approveExpense _ _ ?pid ?i ?s = Ok _ |- _ =>
      apply approveExpense_inv in H as (e & s2 & _ & Hnc & _ & _ & _ & Hc & ->)
    end.
    destruct (Hcall _ _ _ _ Hc) as [_ (new & Hnew & Hq)].
    unfold quiet, approvalDone, approvalStaged in *. storage.
    rewrite Hnew, <- !app_assoc. eexists. split; [reflexivity|].
    intros pid Hlt Hst.
    assert (Hne : projectId ≠ pid) by (intros ->; contradiction).
    apply Forall_app. split.
    + apply Hq; [exact Hlt|]. rewrite lookup_insert_ne by exact Hne. exact Hst.
    + repeat constructor; exact Hne.
  - unfold completeProject in H. cbv zeta in H. ok_inv. quiet_tac.
  - unfold cancelProject in H. cbv zeta in H. ok_inv. quiet_tac.
  - ok_inv.
    apply claimRefund_inv in H as (_ & _ & _ & _ & s2 & Hc & ->).
    destruct (Hcall _ _ _ _ Hc) as [_ (new & Hnew & Hq)].
    unfold quiet, refundDone, refundStaged in *. storage.
    rewrite Hnew, <- !app_assoc. eexists. split; [reflexivity|].
    intros pid Hlt Hst. apply Forall_app. split.
    + apply Hq; assumption.
    + repeat constructor.
  - unfold pause in H. ok_inv. quiet_tac.
  - unfold unpause in H. ok_inv. quiet_tac.
  - unfold grantProjectCreatorRole, grantRole, _grantRole in H. ok_inv.
    destruct (hasRole s _ account); quiet_tac.
  - unfold grantRole, _grantRole in H. ok_inv.
    destruct (hasRole s _ account); quiet_tac.
  - unfold revokeRole, _revokeRole in H. ok_inv.
    destruct (hasRole s _ account); quiet_tac.
  - discriminate.
Qed.

Lemma settled_replay code txs s : settled s (replay code s txs).
Proof.
  apply (replay_lift code settled).
  - apply settled_refl.
  - apply settled_trans.
  - apply settled_balance.
  - intros call sd nw act. apply settled_dispatch.
Qed.

(** C10, as stated, fails: the ether of all projects is one balance, and
    nothing keeps the share of a cancelled project for its refunds.  When
    the first project is cancelled the balance (110 ether) covers the 80
    ether its contributor is owed and the refund would be paid; the refund
    of the second project's contributor (80 ether, of which 50 were already
    spent) then leaves 30 ether, and the first project's contributor can no
    longer be refunded, although no expense of that project was ever
    approved. *)
Lemma cancelled_pool_is_not_preserved :
  status (getProject first_cancelled 0) = Cancelled
  ∧ getContribution first_cancelled 0 2 = 80 * ether
  ∧ balance first_cancelled = 110 * ether
  ∧ (∃ s', exec plain 1 1005 2 (ActClaimRefund 0) first_cancelled = Ok ([], s'))
  ∧ status (getProject pool_drained 0) = Cancelled
  ∧ getProjectExpenses pool_drained 0 = []
  ∧ getRefundClaimed pool_drained 0 2 = false
  ∧ getContribution pool_drained 0 2 = 80 * ether
  ∧ balance pool_drained = 30 * ether
  ∧ ¬ getContribution pool_drained 0 2 ≤ balance pool_drained
  ∧ exec plain 1 1007 2 (ActClaimRefund 0) pool_drained = Revert TransferFailed.
Proof.
  split; [vm_compute; reflexivity|].
  split; [vm_compute; reflexivity|].
  split; [vm_compute; reflexivity|].
  split; [eexists; vm_compute; reflexivity|].
  split; [vm_compute; reflexivity|].
  split; [vm_compute; reflexivity|].
  split; [vm_compute; reflexivity|].
  split; [vm_compute; reflexivity|].
  split; [vm_compute; reflexivity|].
  split; [vm_compute; intros H; apply H; reflexivity|].
  vm_compute; reflexivity.
Qed.

(** C10, amended.  On a Cancelled project [approveExpense] always reverts
    (for an Admin with "Project is cancelled", also when the expense exists
    and is unapproved), so the transaction changes nothing; and for a
    project that has been created Cancelled is final, so from then on,
    whatever transactions follow and whatever the recipients' code does, no
    expense of it is approved or paid out: its expense list (approval flags
    included), its approved total, the amount it raised and the
    contribution recorded for each account (the amount [claimRefund] pays)
    never change, and the log receives no [ExpenseApproved] and no
    [FundsReleased] for it. *)
Theorem cancelled_project_pays_no_expense :
  (∀ call sender pid i s,
     status (getProject s pid) = Cancelled →
     ∃ e, approveExpense call sender pid i s = Revert e
          ∧ (hasRole s DEFAULT_ADMIN_ROLE sender = true →
             e = Reason "Project is cancelled"))
  ∧ (∀ code depth now sender pid i s,
       status (getProject s pid) = Cancelled →
       transact code s (mkTx sender now depth (ActApproveExpense pid i)) = s)
  ∧ (∀ code txs s pid,
       pid < projectCount s →
       status (getProject s pid) = Cancelled →
       let s' := replay code s txs in
       status (getProject s' pid) = Cancelled
       ∧ getProjectExpenses s' pid = getProjectExpenses s pid
       ∧ totalExpenses (getProject s' pid) = totalExpenses (getProject s pid)
       ∧ currentAmount (getProject s' pid) = currentAmount (getProject s pid)
       ∧ (∀ a, getContribution s' pid a = getContribution s pid a)
       ∧ ∃ new, events s' = events s ++ new ∧ Forall (no_payout pid) new).
Proof.
  assert (Hrev : ∀ call sender pid i s,
     status (getProject s pid) = Cancelled →
     ∃ e, approveExpense call sender pid i s = Revert e
          ∧ (hasRole s DEFAULT_ADMIN_ROLE sender = true →
             e = Reason "Project is cancelled")).
  { intros call sender pid i s Hst. unfold approveExpense, onlyRole.
    destruct (hasRole s DEFAULT_ADMIN_ROLE sender).
    - rewrite Hst. rewrite bool_decide_eq_true_2 by reflexivity.
      eexists; split; [reflexivity|auto].
    - eexists; split; [reflexivity|discriminate]. }
  split; [exact Hrev|split].
  - intros code depth now sender pid i s Hst. unfold transact.
    cbn [tx_depth tx_timestamp tx_sender tx_action].
    rewrite exec_unfold. cbn [dispatch].
    destruct (Hrev (transfer code depth now) sender pid i s Hst) as (e & -> & _).
    reflexivity.
  - intros code txs s pid Hlt Hst s'.
    destruct (settled_replay code txs s) as [Hev (new & Hnew & Hq)].
    split.
    + unfold s'. rewrite (ev_terminal _ _ Hev pid Hlt); [exact Hst|congruence].
    + destruct (ev_cancelled _ _ Hev pid Hlt Hst) as (He & Ht & Hc & Ha).
      split; [exact He|]. split; [exact Ht|]. split; [exact Hc|].
      split; [exact Ha|].
      exists new. split; [exact Hnew | apply Hq; assumption].
Qed.

Lemma cancelled_project_pays_no_expense_witness :
  hasRole cancelled_pending DEFAULT_ADMIN_ROLE 1 = true
  ∧ status (getProject cancelled_pending 0) = Cancelled
  ∧ getProjectExpenses cancelled_pending 0 !! 0%nat = Some expense50
  ∧ approved expense50 = false
  ∧ amount expense50 ≤ balance cancelled_pending
  ∧ approveExpense (transfer plain 1 1005) 1 0 0 cancelled_pending
    = Revert (Reason "Project is cancelled")
  ∧ transact plain cancelled_pending (mkTx 1 1005 1 (ActApproveExpense 0 0))
    = cancelled_pending
  ∧ getProjectExpenses
      (replay plain cancelled_pending
         [mkTx 1 1005 1 (ActApproveExpense 0 0);
          mkTx 1 1006 1 (ActCreateProject "n" "d" ether 1);
          mkTx 1 1007 1 (ActApproveExpense 0 0)]) 0
    = [expense50].
Proof.
  destruct cancelled_project_pays_no_expense as (Hrev & Hnone & Hfrozen).
  assert (Hr : hasRole cancelled_pending DEFAULT_ADMIN_ROLE 1 = true)
    by (vm_compute; reflexivity).
  assert (Hst : status (getProject cancelled_pending 0) = Cancelled)
    by (vm_compute; reflexivity).
  assert (Hlt : 0 < projectCount cancelled_pending) by (vm_compute; reflexivity).
  split; [exact Hr|]. split; [exact Hst|].
  split; [vm_compute; reflexivity|]. split; [reflexivity|].
  split; [vm_compute; discriminate|]. split.
  - destruct (Hrev (transfer plain 1 1005) 1 0 0 cancelled_pending Hst)
      as (e & He & Hadmin).
    rewrite He, (Hadmin Hr). reflexivity.
  - split.
    + apply (Hnone plain 1%nat 1005 1 0 0 cancelled_pending Hst).
    + rewrite (proj1 (proj2 (Hfrozen plain _ cancelled_pending 0 Hlt Hst))).
      vm_compute. reflexivity.
Defined.

(** C4 fails on the code.  [cancelProject] does not check that the project
    exists: called by the Admin for id 0 before any project is created, it
    succeeds and stores Cancelled under id 0.  [createProject] then assigns
    id 0 and makes the status Active, and [completeProject] makes it
    Completed: the status of one id goes from Cancelled to Active to
    Completed, and the log shows project 0 cancelled, created, completed. *)
Theorem cancelled_status_is_not_final :
  exec plain 1 1000 1 (ActCancelProject 0) deployed = Ok ([], precancelled)
  ∧ status (getProject precancelled 0) = Cancelled
  ∧ exec plain 1 1001 1 (ActCreateProject "t" "d" (100 * ether) 10) precancelled
    = Ok ([], revived)
  ∧ status (getProject revived 0) = Active
  ∧ exec plain 1 1002 1 (ActCompleteProject 0) revived = Ok ([], recompleted)
  ∧ status (getProject recompleted 0) = Completed
  ∧ events recompleted
    = events deployed
      ++ [ProjectCancelled 0;
          ProjectCreated 0 "t" 1 (100 * ether) (1001 + 10 * days);
          ProjectCompleted 0].
Proof.
  split; [vm_compute; reflexivity|].
  split; [vm_compute; reflexivity|].
  split; [vm_compute; reflexivity|].
  split; [vm_compute; reflexivity|].
  split; [vm_compute; reflexivity|].
  split; [vm_compute; reflexivity|].
  vm_compute; reflexivity.
Qed.
